(** * LeeroyCI: job status, webhook normalisation and notification sinks

    A shallow embedding of the Go sources

    - [database/job.go]                 (module [database]),
    - [callbacks/github.go]             (module [callbacks]),
    - [notification/hipchat.go]         (module [notification]),
    - [integrations/github/commentPR.go] (module [github]),

    together with the few pieces of the Go standard library they rely on
    ([time.Time], [strings.Split], [net/url]).  Part I holds the
    definitions, Part II the theorems. *)

From Stdlib Require Import ZArith List String Ascii Bool Lia.
From Stdlib Require Import DecimalString DecimalZ.
Import ListNotations.

Set Implicit Arguments.

Local Open Scope string_scope.
Local Open Scope list_scope.
Local Open Scope Z_scope.

(* ================================================================== *)
(** * Part I: definitions                                              *)
(* ================================================================== *)

(** ** Package [time]: instants *)

Module gotime.

(** A [time.Time] without monotonic reading: whole seconds since
    January 1, year 1 00:00:00 UTC, and the nanoseconds within that
    second.  Instants before year 1 have a negative [sec]. *)
Record Time : Type := mkTime { sec : Z; nsec : Z }.

(** [time.Time{}], the zero value. *)
Definition zero : Time := {| sec := 0; nsec := 0 |}.

(** [t.After(u)]: the seconds are compared first, then the nanoseconds. *)
Definition After (t u : Time) : bool :=
  (sec t >? sec u) || ((sec t =? sec u) && (nsec t >? nsec u)).

(** [t.IsZero()]. *)
Definition IsZero (t : Time) : bool :=
  (sec t =? 0) && (nsec t =? 0).

(** The instants the program writes are clock readings ([time.Now()]) or
    the zero value: none of them lies before the zero instant. *)
Definition notBeforeZero (t : Time) : Prop :=
  0 <= sec t /\ 0 <= nsec t.

End gotime.

(** ** Package [fmt]: the verb [%d] *)

Module gofmt.

(** [%d] on an integer: its decimal digits, with a minus sign in front
    of a negative number. *)
Definition FormatInt (z : Z) : string :=
  NilEmpty.string_of_int (Z.to_int z).

End gofmt.

(** ** Package [database]: jobs *)

Module database.
Import gotime.

(** Define all statuses a job can have. *)
Definition JobStatusSuccess : string := "success".
Definition JobStatusError : string := "error".
Definition JobStatusPending : string := "pending".

Section Collaborators.

(** [Repository], [CommandLog], [Command] and the command kinds are
    declared in files of the package that are not part of the sources at
    hand; [CommandLog.Passed], [GetCommandLogsForJob] (a query of the
    store) and [Repository.GetCommands] are their operations. *)
Variable Repository : Type.
Variable Command : Type.
Variable CommandKind : Type.
Variable CommandKindBuild : CommandKind.
Variable CommandKindDeploy : CommandKind.
Variable CommandLog : Type.
Variable CommandLog_Passed : CommandLog -> bool.
Variable GetCommandLogsForJob : Z -> list CommandLog.
Variable GetCommands : Repository -> string -> CommandKind -> list Command.

(** Job stores all information about one commit and the executed tasks. *)
Record Job : Type := mkJob {
  ID : Z;

  Cancelled : bool;
  TasksStarted : Time;
  TasksFinished : Time;
  DeployFinished : Time;

  JobRepository : Repository;
  RepositoryID : Z;

  Branch : string;
  Commit : string;
  CommitURL : string;

  Name : string;
  Email : string;

  CreatedAt : Time;
  UpdatedAt : Time;

  CommandLogs : list CommandLog
}.

(** The loop of [Passed]: leave with [false] at the first log that did
    not pass, [true] when the range is exhausted. *)
Fixpoint allPassed (logs : list CommandLog) : bool :=
  match logs with
  | [] => true
  | c :: rest => if negb (CommandLog_Passed c) then false else allPassed rest
  end.

(** Passed returns true if all commands succeeded. *)
Definition Passed (j : Job) : bool :=
  let logs := GetCommandLogsForJob (ID j) in
  allPassed logs.

(** Status returns the current status of the job. *)
Definition Status (j : Job) : string :=
  let n := zero in
  if After (TasksFinished j) n then
    if Passed j then JobStatusSuccess else JobStatusError
  else JobStatusPending.

(** TasksDone sets TasksFinished; [now] is the reading of [time.Now()]. *)
Definition TasksDone (now : Time) (j : Job) : Job :=
  {| ID := ID j; Cancelled := Cancelled j;
     TasksStarted := TasksStarted j; TasksFinished := now;
     DeployFinished := DeployFinished j;
     JobRepository := JobRepository j; RepositoryID := RepositoryID j;
     Branch := Branch j; Commit := Commit j; CommitURL := CommitURL j;
     Name := Name j; Email := Email j;
     CreatedAt := CreatedAt j; UpdatedAt := UpdatedAt j;
     CommandLogs := CommandLogs j |}.

(** DeployDone sets DeployFinished. *)
Definition DeployDone (now : Time) (j : Job) : Job :=
  {| ID := ID j; Cancelled := Cancelled j;
     TasksStarted := TasksStarted j; TasksFinished := TasksFinished j;
     DeployFinished := now;
     JobRepository := JobRepository j; RepositoryID := RepositoryID j;
     Branch := Branch j; Commit := Commit j; CommitURL := CommitURL j;
     Name := Name j; Email := Email j;
     CreatedAt := CreatedAt j; UpdatedAt := UpdatedAt j;
     CommandLogs := CommandLogs j |}.

(** [GetConfig().URL], the URL of the server as the store has it. *)
Variable ConfigURL : string.

(** URL returns the URL for this job, including the configured server
    URL: [fmt.Sprintf("%s/%d", config.URL, j.ID)]. *)
Definition URL (j : Job) : string :=
  (ConfigURL ++ "/" ++ gofmt.FormatInt (ID j))%string.

(** ShouldBuild returns true if there are build commands for this job. *)
Definition ShouldBuild (j : Job) : bool :=
  let commands := GetCommands (JobRepository j) (Branch j) CommandKindBuild in
  if Z.of_nat (List.length commands) >? 0 then Passed j else false.

(** ShouldDeploy returns true if there are deploy commands for this job. *)
Definition ShouldDeploy (j : Job) : bool :=
  let commands := GetCommands (JobRepository j) (Branch j) CommandKindDeploy in
  if Z.of_nat (List.length commands) >? 0 then Passed j else false.

(** Started sets the started time to now indicating that this job
    started running. *)
Definition Started (now : Time) (j : Job) : Job :=
  {| ID := ID j; Cancelled := Cancelled j;
     TasksStarted := now; TasksFinished := TasksFinished j;
     DeployFinished := DeployFinished j;
     JobRepository := JobRepository j; RepositoryID := RepositoryID j;
     Branch := Branch j; Commit := Commit j; CommitURL := CommitURL j;
     Name := Name j; Email := Email j;
     CreatedAt := CreatedAt j; UpdatedAt := UpdatedAt j;
     CommandLogs := CommandLogs j |}.

(** Done returns true if all commands finished executing. *)
Definition Done (j : Job) : bool :=
  if ShouldDeploy j && negb (After (DeployFinished j) zero) then false
  else if negb (After (TasksFinished j) zero) then false
  else true.

(** IsRunning returns true if this job is not finished with all its
    tasks. *)
Definition IsRunning (j : Job) : bool :=
  if After (TasksStarted j) zero && negb (Done j) then true else false.

(** Cancel cancels a job. *)
Definition Cancel (j : Job) : Job :=
  {| ID := ID j; Cancelled := true;
     TasksStarted := TasksStarted j; TasksFinished := TasksFinished j;
     DeployFinished := DeployFinished j;
     JobRepository := JobRepository j; RepositoryID := RepositoryID j;
     Branch := Branch j; Commit := Commit j; CommitURL := CommitURL j;
     Name := Name j; Email := Email j;
     CreatedAt := CreatedAt j; UpdatedAt := UpdatedAt j;
     CommandLogs := CommandLogs j |}.

(** The lifecycle timestamps of a job are clock readings or zero. *)
Definition timestampsOK (j : Job) : Prop :=
  notBeforeZero (TasksStarted j) /\
  notBeforeZero (TasksFinished j) /\
  notBeforeZero (DeployFinished j).

(** Every command log of the job records a passing outcome. *)
Definition everyLogPassed (j : Job) : Prop :=
  Forall (fun c => CommandLog_Passed c = true) (GetCommandLogsForJob (ID j)).

(** The deploy commands configured for the branch of the job. *)
Definition deployCommands (j : Job) : list Command :=
  GetCommands (JobRepository j) (Branch j) CommandKindDeploy.

(** The build commands configured for the branch of the job. *)
Definition buildCommands (j : Job) : list Command :=
  GetCommands (JobRepository j) (Branch j) CommandKindBuild.

(** Modelled from the spec: the struct [CommandLog] is declared outside
    the sources at hand; by the spec a command log records the pipeline
    kind of its command.  [CommandLog_Kind] is that field. *)
Variable CommandLog_Kind : CommandLog -> CommandKind.

(** The build stage passed: every command log of the job that belongs to
    the build pipeline records a passing outcome. *)
Definition buildStagePassed (j : Job) : Prop :=
  Forall (fun c => CommandLog_Kind c = CommandKindBuild ->
                   CommandLog_Passed c = true)
         (GetCommandLogsForJob (ID j)).

End Collaborators.

End database.

(** ** The Go runtime: panics, process exit and threaded state *)

Module goruntime.

(** What a goroutine panics with. *)
Inductive panicValue : Type :=
| IndexOutOfRange (index : nat) (len : nat)
    (* runtime error: index out of range [index] with length len *)
| PanicString (msg : string)
    (* panic("...") *)
| SendOnClosedChannel.
    (* send on closed channel *)

(** How a call ends: it returns, it panics, the process is ended by
    [os.Exit], or the goroutine is parked at a channel operation: the
    call has not returned, and whether it ever does is up to other
    goroutines.  The state that comes with [Blocked] is the state at the
    moment of parking. *)
Inductive outcome (A : Type) : Type :=
| Returned (a : A)
| Panicked (p : panicValue)
| Exited (code : Z)
| Blocked.

Arguments Returned {A} a.
Arguments Panicked {A} p.
Arguments Exited {A} code.
Arguments Blocked {A}.

(** [s[i]] on a slice. *)
Definition index (A : Type) (s : list A) (i : nat) : outcome A :=
  match nth_error s i with
  | Some x => Returned x
  | None => Panicked (IndexOutOfRange i (List.length s))
  end.

(** Calls that read and write a state [S] and may not return. *)
Definition M (S A : Type) : Type := S -> outcome A * S.

Definition ret (S A : Type) (a : A) : M S A :=
  fun s => (Returned a, s).

Definition bind (S A B : Type) (m : M S A) (k : A -> M S B) : M S B :=
  fun s =>
    match m s with
    | (Returned a, s') => k a s'
    | (Panicked p, s') => (Panicked p, s')
    | (Exited c, s') => (Exited c, s')
    | (Blocked, s') => (Blocked, s')
    end.

Definition lift (S A : Type) (o : outcome A) : M S A :=
  fun s => (o, s).

Definition panic (S A : Type) (p : panicValue) : M S A :=
  fun s => (Panicked p, s).

Definition exit (S A : Type) (code : Z) : M S A :=
  fun s => (Exited code, s).

Definition modify (S : Type) (f : S -> S) : M S unit :=
  fun s => (Returned tt, f s).

Definition gets (S A : Type) (f : S -> A) : M S A :=
  fun s => (Returned (f s), s).

Arguments ret {S A} a.
Arguments panic {S A} p.
Arguments exit {S A} code.
Arguments lift {S A} o.

Declare Scope go_scope.
Delimit Scope go_scope with go.

Notation "x <- m ;; k" := (bind m (fun x => k))
  (at level 61, m at next level, right associativity) : go_scope.
Notation "m ;; k" := (bind m (fun _ => k))
  (at level 61, right associativity) : go_scope.

End goruntime.

(** ** Package [strings] *)

Module gostrings.

(** [strings.Split(s, sep)] for a separator of one byte, which is how the
    sources call it: the substrings between the separators, in order;
    a string without separator is its own single segment. *)
Fixpoint Split (s : string) (sep : ascii) : list string :=
  match s with
  | EmptyString => [EmptyString]
  | String c rest =>
      if Ascii.eqb c sep then EmptyString :: Split rest sep
      else match Split rest sep with
           | seg :: segs => String c seg :: segs
           | [] => [String c EmptyString]
           end
  end.

(** [strings.Count(s, sep)] for a separator of one byte. *)
Fixpoint Count (s : string) (sep : ascii) : nat :=
  match s with
  | EmptyString => 0%nat
  | String c rest =>
      if Ascii.eqb c sep then S (Count rest sep) else Count rest sep
  end.

(** [strings.Join(elems, sep)]. *)
Fixpoint Join (elems : list string) (sep : string) : string :=
  match elems with
  | [] => EmptyString
  | [e] => e
  | e :: rest => (e ++ sep ++ Join rest sep)%string
  end.

End gostrings.

(** ** Package [log] *)

Module golog.

(** What [log.Println] writes for its operands: they are separated by
    blanks.  (The time stamp and the final newline are left out.) *)
Definition Sprintln (operands : list string) : string :=
  gostrings.Join operands " ".

End golog.

(** ** Package [logging]: the build request *)

Module logging.

(** Modelled from the spec: [logging.Job] is declared outside the sources
    at hand.  Its fields are those the literal in [parseGitHub] sets (the
    spec's BuildRequest: repository URL, branch, commit, pusher, time). *)
Record Job : Type := mkJob {
  URL : string;
  Branch : string;
  Timestamp : gotime.Time;
  Commit : string;
  Name : string;
  Email : string
}.

End logging.

(** ** Package [callbacks]: the GitHub webhook *)

Module callbacks.
Import goruntime.

Module GitUser.
Record t : Type := mk {
  Name : string;
  Email : string
}.
Definition zero : t := {| Name := ""; Email := "" |}.
End GitUser.

Module GitHubUser.
Record t : Type := mk {
  Name : string;
  Email : string;
  Username : string
}.
Definition zero : t := {| Name := ""; Email := ""; Username := "" |}.
End GitHubUser.

Module Commit.
Record t : Type := mk {
  Id : string;
  Distinct : bool;
  Message : string;
  Timestamp : string;
  Url : string;
  Author : GitHubUser.t;
  Committer : GitHubUser.t;
  Added : list string;
  Removed : list string;
  Modified : list string
}.
Definition zero : t :=
  {| Id := ""; Distinct := false; Message := ""; Timestamp := ""; Url := "";
     Author := GitHubUser.zero; Committer := GitHubUser.zero;
     Added := []; Removed := []; Modified := [] |}.
End Commit.

Module Repository.
Record t : Type := mk {
  Id : Z;
  Name : string;
  Url : string;
  Description : string;
  Watchers : Z;
  Stargazers : Z;
  Forks : Z;
  Size : Z;
  Owner : GitUser.t;
  Private : bool;
  Open_issues : Z;
  Has_issues : bool;
  Has_downloads : bool;
  Has_wiki : bool;
  Created_at : Z;
  Pushed_at : Z;
  Master_branch : string
}.
Definition zero : t :=
  {| Id := 0; Name := ""; Url := ""; Description := "";
     Watchers := 0; Stargazers := 0; Forks := 0; Size := 0;
     Owner := GitUser.zero; Private := false; Open_issues := 0;
     Has_issues := false; Has_downloads := false; Has_wiki := false;
     Created_at := 0; Pushed_at := 0; Master_branch := "" |}.
End Repository.

Record GitHubCallback : Type := mkGitHubCallback {
  Ref : string;
  After : string;
  Before : string;
  Created : bool;
  Deleted : bool;
  Forced : bool;
  Compare : string;
  Commits : list Commit.t;
  Head_commit : Commit.t;
  Repository : Repository.t;
  Pusher : GitUser.t
}.

(** [var cb GitHubCallback]: every field at the zero value of its type. *)
Definition zeroCallback : GitHubCallback :=
  {| Ref := ""; After := ""; Before := "";
     Created := false; Deleted := false; Forced := false;
     Compare := ""; Commits := []; Head_commit := Commit.zero;
     Repository := Repository.zero; Pusher := GitUser.zero |}.

(** Branch returns the name of the branch. *)
Definition Branch (g : GitHubCallback) : outcome string :=
  let s := gostrings.Split (Ref g) "/" in
  index s 2.

(** URL returns the URL for the repository. *)
Definition URL (g : GitHubCallback) : string :=
  Repository.Url (Repository g).

(** By returns who pushed / triggered the callback. *)
Definition By (g : GitHubCallback) : string * string :=
  (GitUser.Name (Pusher g), GitUser.Email (Pusher g)).

(** Returns if this commit should be build. Do not build if the branch was
    deleted for example. *)
Definition ShouldBuild (g : GitHubCallback) : bool :=
  if Bool.eqb (Deleted g) true then false else true.

(** Returns the ID of the head commit. *)
Definition Commit (g : GitHubCallback) : string :=
  Commit.Id (Head_commit g).

(** A [chan logging.Job] as a sender finds it: the requests in its
    buffer, oldest first; the size of the buffer (0 for an unbuffered
    channel); whether it was closed; how many goroutines are parked on a
    receive; and the requests that were handed to such receivers, oldest
    first.  (A nil channel is like an unbuffered channel nobody receives
    from: a send on it never returns.) *)
Record Chan : Type := mkChan {
  buffered : list logging.Job;
  capacity : nat;
  closed : bool;
  recvq : nat;
  received : list logging.Job
}.

(** What [parseGitHub] acts on: the build queue (the channel [jobs]) and
    the lines written to the log. *)
Record World : Type := mkWorld {
  jobs : Chan;
  stdlog : list string
}.

(** [c <- j] as the runtime does it: a send on a closed channel panics;
    if a receiver is parked the request is handed to it; else it goes
    to the end of the buffer if there is room; else the sender is
    parked. *)
Definition chansend (c : Chan) (j : logging.Job) : outcome unit * Chan :=
  if closed c then (Panicked SendOnClosedChannel, c)
  else
    match recvq c with
    | S n =>
        (Returned tt,
         {| buffered := buffered c; capacity := capacity c;
            closed := closed c; recvq := n;
            received := received c ++ [j] |})
    | O =>
        if (List.length (buffered c) <? capacity c)%nat then
          (Returned tt,
           {| buffered := buffered c ++ [j]; capacity := capacity c;
              closed := closed c; recvq := recvq c;
              received := received c |})
        else (Blocked, c)
    end.

(** [jobs <- j]. *)
Definition send (j : logging.Job) : M World unit :=
  fun w =>
    let '(o, c) := chansend (jobs w) j in
    (o, {| jobs := c; stdlog := stdlog w |}).

(** [log.Println(operands...)]. *)
Definition Println (operands : list string) : M World unit :=
  modify (fun w => {| jobs := jobs w;
                      stdlog := stdlog w ++ [golog.Sprintln operands] |}).

Section Decoder.

(** [json.Unmarshal(body, &cb)] on a zero [cb]: the callback as far as it
    was decoded, and the error if there was one.  [encoding/json] is not
    part of the sources. *)
Variable Unmarshal : string -> GitHubCallback * option string.

Local Open Scope go_scope.

(** Parse a GitHub request body and add it to the build queue.  [now] is
    the reading of [time.Now()]. *)
Definition parseGitHub (now : gotime.Time) (body : string) : M World unit :=
  let '(cb, err) := Unmarshal body in
  let '(name, email) := By cb in
  branch <- lift (Branch cb) ;;
  let j := {| logging.URL := URL cb;
              logging.Branch := branch;
              logging.Timestamp := now;
              logging.Commit := Commit cb;
              logging.Name := name;
              logging.Email := email |} in
  match err with
  | Some _ =>
      Println [body] ;;
      panic (PanicString "Could not unmarshal request")
  | None =>
      if Bool.eqb (ShouldBuild cb) true then send j
      else
        branch' <- lift (Branch cb) ;;
        Println ["Not adding"; URL cb; branch'; "to build queue"]
  end.

End Decoder.

(** The final path segment of a reference. *)
Definition finalSegment (ref : string) : string :=
  List.last (gostrings.Split ref "/") EmptyString.

End callbacks.

(** ** Package [net/url]: form values and their encoding *)

Module url.

(** [url.Values], a [map[string][]string]: one entry per key. *)
Definition Values : Type := list (string * list string).

(** [v.Add(key, value)] appends the value to the values of the key. *)
Fixpoint Add (v : Values) (key value : string) : Values :=
  match v with
  | [] => [(key, [value])]
  | (k, vs) :: rest =>
      if String.eqb k key then (k, vs ++ [value]) :: rest
      else (k, vs) :: Add rest key value
  end.

Definition inRange (lo hi c : ascii) : bool :=
  (N_of_ascii lo <=? N_of_ascii c)%N && (N_of_ascii c <=? N_of_ascii hi)%N.

(** [shouldEscape(c, encodeQueryComponent)]: letters, digits and the marks
    [-], [_], [.], [~] are kept, every other byte is escaped. *)
Definition shouldEscape (c : ascii) : bool :=
  if inRange "a" "z" c || inRange "A" "Z" c || inRange "0" "9" c then false
  else if Ascii.eqb c "-" || Ascii.eqb c "_" || Ascii.eqb c "."
          || Ascii.eqb c "~" then false
  else true.

Definition upperhex : string := "0123456789ABCDEF".

Definition hexDigit (n : N) : ascii :=
  match String.get (N.to_nat n) upperhex with
  | Some d => d
  | None => "0"%char
  end.

(** [QueryEscape(s)]: a blank becomes [+], any other escaped byte [%XX]. *)
Fixpoint QueryEscape (s : string) : string :=
  match s with
  | EmptyString => EmptyString
  | String c rest =>
      if shouldEscape c then
        if Ascii.eqb c " " then String "+" (QueryEscape rest)
        else String "%" (String (hexDigit (N.shiftr (N_of_ascii c) 4))
                        (String (hexDigit (N.land (N_of_ascii c) 15))
                                (QueryEscape rest)))
      else String c (QueryEscape rest)
  end.

(** The entries in the order of their keys (the keys of a map are
    pairwise different). *)
Fixpoint insertEntry (e : string * list string) (v : Values) : Values :=
  match v with
  | [] => [e]
  | e' :: rest =>
      if String.leb (fst e) (fst e') then e :: e' :: rest
      else e' :: insertEntry e rest
  end.

Definition sortedEntries (v : Values) : Values :=
  List.fold_right insertEntry [] v.

(** One turn of the inner loop of [Encode]: an ampersand unless the buffer
    is empty, then [key=value], both escaped. *)
Definition writePair (keyEscaped : string) (buf value : string) : string :=
  let buf := if (0 <? String.length buf)%nat then (buf ++ "&")%string
             else buf in
  (buf ++ keyEscaped ++ "=" ++ QueryEscape value)%string.

(** [v.Encode()]: the URL-encoded form, sorted by key. *)
Definition Encode (v : Values) : string :=
  List.fold_left
    (fun buf e => List.fold_left (writePair (QueryEscape (fst e))) (snd e) buf)
    (sortedEntries v) EmptyString.

(** The reading of an encoded form: its [key=value] pairs in order, as
    [ParseQuery] cuts them (at the ampersands, then at the first [=]). *)
Fixpoint cutAt (sep : ascii) (s : string) : string * option string :=
  match s with
  | EmptyString => (EmptyString, None)
  | String c rest =>
      if Ascii.eqb c sep then (EmptyString, Some rest)
      else let '(k, v) := cutAt sep rest in (String c k, v)
  end.

Definition pairsOf (encoded : string) : list (string * string) :=
  List.map (fun p => let '(k, v) := cutAt "=" p in
                     (k, match v with Some x => x | None => EmptyString end))
           (gostrings.Split encoded "&").

(** The value the encoded form carries for a key: that of the first pair
    with this key. *)
Fixpoint lookupPair (key : string) (ps : list (string * string))
  : option string :=
  match ps with
  | [] => None
  | (k, v) :: rest => if String.eqb k key then Some v else lookupPair key rest
  end.

Definition carried (key encoded : string) : option string :=
  lookupPair key (pairsOf encoded).

(** The value of a hexadecimal digit. *)
Definition unhex (c : ascii) : N :=
  if inRange "0" "9" c then N_of_ascii c - N_of_ascii "0"
  else if inRange "a" "f" c then N_of_ascii c - N_of_ascii "a" + 10
  else if inRange "A" "F" c then N_of_ascii c - N_of_ascii "A" + 10
  else 0.

(** The reading of an escaped string: [%XX] is the byte [XX], [+] is a
    blank, any other byte is itself. *)
Fixpoint readEscaped (s : string) : string :=
  match s with
  | EmptyString => EmptyString
  | String c rest =>
      if Ascii.eqb c "%" then
        match rest with
        | String a (String b rest') =>
            String (ascii_of_N (unhex a * 16 + unhex b)) (readEscaped rest')
        | _ => String c EmptyString
        end
      else if Ascii.eqb c "+" then String " " (readEscaped rest)
      else String c (readEscaped rest)
  end.

End url.

(** ** The state the notification sinks act on *)

Module process.

Section Store.

(** The persistent store (jobs, repositories, configuration), whose
    implementation is outside the sources. *)
Variable DB : Type.

Record World : Type := mkWorld {
  store : DB;
  stdlog : list string
}.

(** [log.Println(operands...)]. *)
Definition Println (operands : list string) : goruntime.M World unit :=
  goruntime.modify
    (fun w => {| store := store w;
                 stdlog := stdlog w ++ [golog.Sprintln operands] |}).

(** [log.Fatalln(operands...)]: [Println] followed by [os.Exit(1)]. *)
Definition Fatalln (operands : list string) : goruntime.M World unit :=
  goruntime.bind (Println operands) (fun _ => goruntime.exit 1).

End Store.

End process.

(** ** Package [notification]: the HipChat sink *)

Module notification.
Import goruntime.

Module Notification.
(** Modelled from the spec: the struct [notification] is declared outside
    the sources at hand; these are the two fields [notToHipChapt] reads,
    the rendered message and the pass/fail status of the job. *)
Record t : Type := mk {
  rendered : string;
  Status : bool
}.
End Notification.

(** [fmt.Sprintf(api, key)] for
    [api = "https://www.hipchat.com/v1/rooms/message?auth_token=%s"]. *)
Definition api (key : string) : string :=
  ("https://www.hipchat.com/v1/rooms/message?auth_token=" ++ key)%string.

Record hipchatPayload : Type := mkHipchatPayload {
  Room : string;
  From : string;
  Color : string;
  Message : string;
  Notify : bool;
  Format : string;
  Status : bool
}.

(** HipChat expects www-form-urlencoded - prepare the struct. *)
Definition toURLEncoded (h : hipchatPayload) : string :=
  let d : url.Values := [] in
  let d := url.Add d "room_id" (Room h) in
  let d := url.Add d "from" (From h) in
  let d := url.Add d "message" (Message h) in
  let d := url.Add d "message_format" (Format h) in
  let d := if Bool.eqb (Notify h) true then url.Add d "notify" "1"
           else url.Add d "notify" "2" in
  let d := if Bool.eqb (Status h) true then url.Add d "color" "green"
           else url.Add d "color" "red" in
  url.Encode d.

(** Convert a notification to a hipchat payload. *)
Definition notToHipChapt (n : Notification.t) (channel : string)
  : hipchatPayload :=
  {| Color := "green";
     Notify := true;
     Format := "text";
     Room := channel;
     From := "Leeroy";
     Message := Notification.rendered n;
     Status := Notification.Status n |}.

Section Network.

Variable DB : Type.

(** [http.Post(url, contentType, body)]: the error, if the request could
    not be delivered. *)
Variable Post : string -> string -> string -> option string.

Local Open Scope go_scope.

Definition hipchat (n : Notification.t) (key chl : string)
  : M (process.World DB) unit :=
  let e := api key in
  let p := notToHipChapt n chl in
  let err := Post e "application/x-www-form-urlencoded" (toURLEncoded p) in
  match err with
  | Some e' => process.Println [e']
  | None => ret tt
  end.

End Network.

End notification.

(** ** Package [github]: comments on pull requests *)

Module github.
Import goruntime.

(** Everything needed to comment on a GitHub pull request. *)
Record comment : Type := mkComment {
  Body : string
}.

Section Collaborators.

(** Declared outside the sources at hand: the store with its
    configuration ([database.GetConfig().URL]) and repositories
    ([database.RepositoryForURL], which returns a repository and nothing
    else, and the access key of a repository), the methods [Success] and
    [Hex] of [logging.Job], the pull request callback with its comments
    URL ([pc.PR.CommentsURL]), [json.Marshal] and [githubRequest] (the
    errors they return, if any). *)
Variable DB : Type.
Variable ConfigURL : DB -> string.
Variable Repo : Type.
Variable RepositoryForURL : DB -> string -> Repo.

(** The variable [err] that the check after the lookup reads.  [PostPR]
    has not declared an [err] at that point and the lookup sets none: it
    is the [err] of the enclosing scope, with whatever it holds when
    [PostPR] is entered. *)
Variable outerErr : option string.
Variable AccessKey : Repo -> string.
Variable Success : logging.Job -> bool.
Variable Hex : logging.Job -> string.
Variable PRCallback : Type.
Variable CommentsURL : PRCallback -> string.
Variable Marshal : comment -> string * option string.
Variable githubRequest : string -> string -> string -> string -> option string.

Local Open Scope go_scope.

(** Returns a new Comment with the status of the job as body. *)
Definition newComment (job : logging.Job) (base : string) : comment :=
  if Success job then {| Body := "build successful" |}
  else
    let body := "build failed - <a href='" in
    let body := (body ++ base ++ "status/commit/")%string in
    let body := (body ++ Hex job ++ "/" ++ logging.Commit job)%string in
    let body := (body ++ "'>show log</a>")%string in
    {| Body := body |}.

Definition fatalIf (err : option string) : M (process.World DB) unit :=
  match err with
  | Some e => process.Fatalln [e]
  | None => ret tt
  end.

(** PostPR posts a new comment on a pull request. *)
Definition PostPR (job : logging.Job) (pc : PRCallback)
  : M (process.World DB) unit :=
  base <- gets (fun w => ConfigURL (process.store w)) ;;
  let comment := newComment job base in
  rp <- gets (fun w => RepositoryForURL (process.store w) (logging.URL job)) ;;
  fatalIf outerErr ;;
  let '(m, err) := Marshal comment in
  fatalIf err ;;
  let err := githubRequest "POST" (CommentsURL pc) (AccessKey rp) m in
  fatalIf err.

(** The error [PostPR] meets first, if any: what the [err] of the
    enclosing scope holds, else the error of the serialisation, else
    that of the request. *)
Definition firstError (job : logging.Job) (pc : PRCallback) (db : DB)
  : option string :=
  let rp := RepositoryForURL db (logging.URL job) in
  match outerErr with
  | Some e => Some e
  | None =>
      let '(m, err) := Marshal (newComment job (ConfigURL db)) in
      match err with
      | Some e => Some e
      | None => githubRequest "POST" (CommentsURL pc) (AccessKey rp) m
      end
  end.

End Collaborators.

End github.

(** ** Fixtures: concrete stores, payloads and collaborators *)

Module fixtures.
Import gotime.

(** Two clock readings of the same day. *)
Definition t1 : Time := {| sec := 63600000000; nsec := 250 |}.
Definition t2 : Time := {| sec := 63600000090; nsec := 0 |}.

Inductive kind : Type := build | deploy.

(** A store in which job 7 has two command logs, both passed, and every
    other job has none; a command log is reduced to its outcome. *)
Definition logsOf (id : Z) : list bool :=
  if id =? 7 then [true; true] else [].

(** A repository with one build and one deploy command on every branch. *)
Definition commandsOf (_ : unit) (_ : string) (k : kind) : list string :=
  match k with
  | build => ["make test"]
  | deploy => ["make deploy"]
  end.

(** Job 7 after its build stage: started and finished, not yet deployed. *)
Definition job7 : database.Job unit bool :=
  {| database.ID := 7; database.Cancelled := false;
     database.TasksStarted := t1; database.TasksFinished := t2;
     database.DeployFinished := zero;
     database.JobRepository := tt; database.RepositoryID := 1;
     database.Branch := "main"; database.Commit := "abc123";
     database.CommitURL := "https://example.org/c/abc123";
     database.Name := "dev"; database.Email := "dev@example.org";
     database.CreatedAt := t1; database.UpdatedAt := t2;
     database.CommandLogs := [] |}.

(** The same job once the deploy stage has ended. *)
Definition job7deployed : database.Job unit bool :=
  database.DeployDone t2 job7.

(** Webhook payloads as decoded: a push to [ref], or its deletion. *)
Definition push (ref : string) (deleted : bool) : callbacks.GitHubCallback :=
  {| callbacks.Ref := ref;
     callbacks.After := "abc123"; callbacks.Before := "000000";
     callbacks.Created := false; callbacks.Deleted := deleted;
     callbacks.Forced := false; callbacks.Compare := "";
     callbacks.Commits := [];
     callbacks.Head_commit :=
       callbacks.Commit.mk "abc123" true "fix" "" "https://example.org/c/abc123"
         callbacks.GitHubUser.zero callbacks.GitHubUser.zero [] [] [];
     callbacks.Repository :=
       callbacks.Repository.mk 1 "leeroy" "https://example.org/leeroy" ""
         0 0 0 0 callbacks.GitUser.zero false 0 false false false 0 0 "main";
     callbacks.Pusher := callbacks.GitUser.mk "dev" "dev@example.org" |}.

(** A stand-in for [json.Unmarshal] on four request bodies, which are
    named here rather than spelled out: a push to [main], the deletion of
    [feature/x], a push whose [deleted] member is a string (the other
    members are decoded, the error is reported), and a body that is not
    JSON at all (nothing is decoded). *)
Definition decode (body : string)
  : callbacks.GitHubCallback * option string :=
  if String.eqb body "push-main" then
    (push "refs/heads/main" false, None)
  else if String.eqb body "delete-feature-x" then
    (push "refs/heads/feature/x" true, None)
  else if String.eqb body "push-main-deleted-as-string" then
    (push "refs/heads/main" false,
     Some "json: cannot unmarshal string into Go struct field GitHubCallback.Deleted of type bool")
  else
    (callbacks.zeroCallback,
     Some "invalid character 'o' in literal null (expecting 'u')").

(** The request that came with a push to [main]. *)
Definition request : logging.Job :=
  {| logging.URL := "https://example.org/leeroy"; logging.Branch := "main";
     logging.Timestamp := t1; logging.Commit := "abc123";
     logging.Name := "dev"; logging.Email := "dev@example.org" |}.

(** A process with nothing in its log; the store is reduced to the URL
    of the server. *)
Definition quiet : process.World string :=
  {| process.store := "https://ci.example.org/"; process.stdlog := [] |}.

(** Collaborators of [PostPR]: the repository is found (it is reduced to
    its access key) and the comment is serialised, but GitHub cannot be
    reached. *)
Definition lookup (_ : string) (_ : string) : string := "secret".
Definition marshal (c : github.comment) : string * option string :=
  (github.Body c, None).
Definition unreachable (_ _ _ _ : string) : option string :=
  Some "dial tcp: connection refused".

(** A notification of a failed build. *)
Definition failed : notification.Notification.t :=
  notification.Notification.mk "main: build failed" false.

(** An open build queue with room for two requests, nothing in it and
    no worker waiting; an empty log. *)
Definition idle : callbacks.World :=
  {| callbacks.jobs := callbacks.mkChan [] 2 false 0 [];
     callbacks.stdlog := [] |}.

(** A store in which the second command of job 7 failed. *)
Definition failingLogsOf (id : Z) : list bool :=
  if id =? 7 then [true; false] else [].

(** The store of [failingLogsOf] before the second command of job 7 has
    run. *)
Definition earlierLogsOf (id : Z) : list bool :=
  if id =? 7 then [true] else [].

(** A job that was created and not yet started. *)
Definition job9 : database.Job unit bool :=
  {| database.ID := 9; database.Cancelled := false;
     database.TasksStarted := zero; database.TasksFinished := zero;
     database.DeployFinished := zero;
     database.JobRepository := tt; database.RepositoryID := 1;
     database.Branch := "main"; database.Commit := "def456";
     database.CommitURL := "https://example.org/c/def456";
     database.Name := "dev"; database.Email := "dev@example.org";
     database.CreatedAt := t1; database.UpdatedAt := t1;
     database.CommandLogs := [] |}.

(** The same queue when it already holds one request. *)
Definition busy : callbacks.World :=
  {| callbacks.jobs := callbacks.mkChan [request] 2 false 0 [];
     callbacks.stdlog := [] |}.

(** A queue for one request that holds one. *)
Definition full : callbacks.World :=
  {| callbacks.jobs := callbacks.mkChan [request] 1 false 0 [];
     callbacks.stdlog := [] |}.

(** The pipeline a command log belongs to, and its outcome. *)
Definition stageLog : Type := (kind * bool)%type.

(** A store in which job 7 ran its build command, which passed, and its
    deploy command, which failed. *)
Definition stageLogsOf (id : Z) : list stageLog :=
  if id =? 7 then [(build, true); (deploy, false)] else [].

(** Job 7 with both stages ended. *)
Definition job7failedDeploy : database.Job unit stageLog :=
  {| database.ID := 7; database.Cancelled := false;
     database.TasksStarted := t1; database.TasksFinished := t2;
     database.DeployFinished := t2;
     database.JobRepository := tt; database.RepositoryID := 1;
     database.Branch := "main"; database.Commit := "abc123";
     database.CommitURL := "https://example.org/c/abc123";
     database.Name := "dev"; database.Email := "dev@example.org";
     database.CreatedAt := t1; database.UpdatedAt := t2;
     database.CommandLogs := [] |}.

(** Two payloads for HipChat that differ in their colour only. *)
Definition greenPayload : notification.hipchatPayload :=
  notification.mkHipchatPayload "builds" "Leeroy" "green" "a=b&c" true
    "text" true.
Definition purplePayload : notification.hipchatPayload :=
  notification.mkHipchatPayload "builds" "Leeroy" "purple" "a=b&c" true
    "text" true.

End fixtures.

(* ================================================================== *)
(** * Part II: theorems                                                *)
(* ================================================================== *)

(** ** Instants *)

Section TimeFacts.
Import gotime.

Lemma After_zero_true (t : Time) :
  notBeforeZero t -> (After t zero = true <-> t <> zero).
Proof.
  destruct t as [s n]. unfold notBeforeZero, After, zero. simpl.
  intros [Hs Hn]. split.
  - intros H E. inversion E; subst. simpl in H. discriminate.
  - intros H.
    destruct (Z.gtb_spec s 0) as [Hgt | Hle]; [reflexivity | simpl].
    assert (s = 0) by lia. subst s. simpl.
    destruct (Z.gtb_spec n 0) as [Hgt' | Hle']; [reflexivity | ].
    exfalso. apply H. f_equal. lia.
Qed.

Lemma After_zero_false (t : Time) :
  notBeforeZero t -> (After t zero = false <-> t = zero).
Proof.
  intros Hwf. pose proof (After_zero_true Hwf) as [H1 H2]. split.
  - intros Hf. destruct t as [s n]. unfold zero.
    destruct (Z.eq_dec s 0) as [-> | Hs].
    + destruct (Z.eq_dec n 0) as [-> | Hn]; [reflexivity | ].
      rewrite H2 in Hf; [discriminate | ]. intros E. inversion E. contradiction.
    + rewrite H2 in Hf; [discriminate | ]. intros E. inversion E. contradiction.
  - intros ->. reflexivity.
Qed.

(** An instant before year 1 is neither zero nor after zero. *)
Lemma before_zero_not_After :
  After {| sec := -1; nsec := 0 |} zero = false
  /\ {| sec := -1; nsec := 0 |} <> zero.
Proof. split; [reflexivity | discriminate]. Qed.

Lemma zero_notBeforeZero : notBeforeZero zero.
Proof. unfold notBeforeZero, zero. simpl. lia. Qed.

Lemma IsZero_true (t : Time) : IsZero t = true <-> t = zero.
Proof.
  destruct t as [s n]. unfold IsZero, zero. simpl.
  rewrite andb_true_iff, !Z.eqb_eq. split.
  - intros [-> ->]. reflexivity.
  - intros E. inversion E. auto.
Qed.

End TimeFacts.

(** ** Jobs *)

Section JobFacts.
Import gotime.

Variable Repository : Type.
Variable Command : Type.
Variable CommandKind : Type.
Variable CommandKindBuild : CommandKind.
Variable CommandKindDeploy : CommandKind.
Variable CommandLog : Type.
Variable CommandLog_Passed : CommandLog -> bool.
Variable GetCommandLogsForJob : Z -> list CommandLog.
Variable GetCommands : Repository -> string -> CommandKind -> list Command.

Local Abbreviation Job := (database.Job Repository CommandLog).
Local Abbreviation Passed :=
  (database.Passed CommandLog_Passed GetCommandLogsForJob).
Local Abbreviation Status :=
  (database.Status CommandLog_Passed GetCommandLogsForJob).
Local Abbreviation ShouldDeploy :=
  (database.ShouldDeploy CommandKindDeploy CommandLog_Passed
     GetCommandLogsForJob GetCommands).
Local Abbreviation Done :=
  (database.Done CommandKindDeploy CommandLog_Passed
     GetCommandLogsForJob GetCommands).
Local Abbreviation IsRunning :=
  (database.IsRunning CommandKindDeploy CommandLog_Passed
     GetCommandLogsForJob GetCommands).
Local Abbreviation everyLogPassed :=
  (database.everyLogPassed CommandLog_Passed GetCommandLogsForJob).
Local Abbreviation deployCommands :=
  (database.deployCommands CommandKindDeploy GetCommands).

Lemma allPassed_Forall (logs : list CommandLog) :
  database.allPassed CommandLog_Passed logs = true <->
  Forall (fun c => CommandLog_Passed c = true) logs.
Proof.
  induction logs as [| c rest IH]; simpl.
  - split; auto.
  - destruct (CommandLog_Passed c) eqn:Hc; simpl.
    + rewrite IH. split.
      * intros H. constructor; assumption.
      * intros H. inversion H; assumption.
    + split; [discriminate | ].
      intros H. inversion H; subst. congruence.
Qed.

Lemma Passed_iff (j : Job) : Passed j = true <-> everyLogPassed j.
Proof. unfold database.Passed, database.everyLogPassed. apply allPassed_Forall. Qed.

Lemma Passed_false_iff (j : Job) : Passed j = false <-> ~ everyLogPassed j.
Proof.
  rewrite <- Passed_iff. destruct (Passed j); split; congruence.
Qed.

Lemma ShouldDeploy_eq (j : Job) :
  ShouldDeploy j = negb (Nat.eqb (List.length (deployCommands j)) 0)
                   && Passed j.
Proof.
  unfold database.ShouldDeploy, database.deployCommands.
  destruct (GetCommands _ _ _) as [| c cs]; reflexivity.
Qed.

Lemma Done_eq (j : Job) :
  Done j = After (database.TasksFinished j) zero
           && (negb (ShouldDeploy j)
               || After (database.DeployFinished j) zero).
Proof.
  unfold database.Done.
  destruct (ShouldDeploy j), (After (database.DeployFinished j) zero),
    (After (database.TasksFinished j) zero); reflexivity.
Qed.

Lemma IsRunning_eq (j : Job) :
  IsRunning j = After (database.TasksStarted j) zero && negb (Done j).
Proof.
  unfold database.IsRunning.
  destruct (After (database.TasksStarted j) zero), (Done j); reflexivity.
Qed.

Lemma Status_cases (j : Job) :
  Status j =
    if After (database.TasksFinished j) zero
    then if Passed j then database.JobStatusSuccess
         else database.JobStatusError
    else database.JobStatusPending.
Proof. reflexivity. Qed.

(** C1. For every job whose [TasksFinished] is a clock reading or zero:
    [Status()] is pending exactly when [TasksFinished] is unset (the zero
    value); when it is set, [Status()] is success if every command log of
    the job records a passing outcome and error otherwise.  The command
    logs are an arbitrary list, so this covers none, one and many. *)
Theorem Status_spec (j : Job) :
  notBeforeZero (database.TasksFinished j) ->
  (Status j = database.JobStatusPending <-> database.TasksFinished j = zero)
  /\ (database.TasksFinished j <> zero ->
      (Status j = database.JobStatusSuccess <-> everyLogPassed j)
      /\ (Status j = database.JobStatusError <-> ~ everyLogPassed j)).
Proof.
  intros Hwf. rewrite Status_cases.
  pose proof (After_zero_true Hwf) as Hset.
  pose proof (After_zero_false Hwf) as Hunset.
  destruct (After (database.TasksFinished j) zero) eqn:HA.
  - assert (Hne : database.TasksFinished j <> zero) by (apply Hset; reflexivity).
    split.
    + destruct (Passed j); split; intros H;
        solve [discriminate H | contradiction].
    + intros _. rewrite <- Passed_iff.
      destruct (Passed j); repeat split; intros H;
        solve [reflexivity | discriminate H | congruence].
  - assert (He : database.TasksFinished j = zero) by (apply Hunset; reflexivity).
    split; [split; auto | ]. intros Hne. contradiction.
Qed.

(** With no command log at all a finished job reads success. *)
Lemma Status_no_logs (j : Job) :
  After (database.TasksFinished j) zero = true ->
  GetCommandLogsForJob (database.ID j) = [] ->
  Status j = database.JobStatusSuccess.
Proof.
  intros HA Hl. rewrite Status_cases, HA.
  unfold database.Passed. rewrite Hl. reflexivity.
Qed.

(** With a single command log a finished job reads as that log does. *)
Lemma Status_one_log (j : Job) (c : CommandLog) :
  After (database.TasksFinished j) zero = true ->
  GetCommandLogsForJob (database.ID j) = [c] ->
  Status j = if CommandLog_Passed c then database.JobStatusSuccess
             else database.JobStatusError.
Proof.
  intros HA Hl. rewrite Status_cases, HA.
  unfold database.Passed. rewrite Hl. simpl.
  destruct (CommandLog_Passed c); reflexivity.
Qed.

(** C2. For every job whose timestamps are clock readings or zero,
    [Done()] is true exactly when [TasksFinished] is set and, in
    addition, [ShouldDeploy()] is false or [DeployFinished] is set. *)
Theorem Done_spec (j : Job) :
  notBeforeZero (database.TasksFinished j) ->
  notBeforeZero (database.DeployFinished j) ->
  (Done j = true <->
   database.TasksFinished j <> zero
   /\ (ShouldDeploy j = false \/ database.DeployFinished j <> zero)).
Proof.
  intros Ht Hd. rewrite Done_eq, andb_true_iff, orb_true_iff, negb_true_iff.
  rewrite (After_zero_true Ht), (After_zero_true Hd). reflexivity.
Qed.

(** C4, as the code has it.  [ShouldDeploy()] is true exactly when at
    least one deploy command is configured for the branch of the job and
    every command log recorded for the job, of either stage, records a
    passing outcome ([Passed()], which holds while no log is recorded);
    with no deploy command configured it is false whatever the logs
    say. *)
Theorem ShouldDeploy_spec (j : Job) :
  (ShouldDeploy j = true <->
   (1 <= List.length (deployCommands j))%nat /\ everyLogPassed j)
  /\ (List.length (deployCommands j) = 0%nat -> ShouldDeploy j = false).
Proof.
  rewrite ShouldDeploy_eq, <- Passed_iff.
  destruct (deployCommands j) as [| c cs]; simpl.
  - split; [ | reflexivity]. split; [discriminate | ]. intros [H _]. lia.
  - split; [ | discriminate]. split.
    + intros H. split; [lia | exact H].
    + intros [_ H]. exact H.
Qed.

(** C3, as the code has it.  For every job whose timestamps are clock
    readings or zero, [IsRunning()] and [Status() == success] hold
    together exactly while the deploy stage is outstanding: [TasksStarted]
    and [TasksFinished] are set, [ShouldDeploy()] is true and
    [DeployFinished] is unset.  So they never hold together for a job with
    [ShouldDeploy()] false or [DeployFinished] set. *)
Theorem IsRunning_Success_spec (j : Job) :
  database.timestampsOK j ->
  (IsRunning j = true /\ Status j = database.JobStatusSuccess <->
   database.TasksStarted j <> zero /\ database.TasksFinished j <> zero
   /\ ShouldDeploy j = true /\ database.DeployFinished j = zero)
  /\ (ShouldDeploy j = false \/ database.DeployFinished j <> zero ->
      ~ (IsRunning j = true /\ Status j = database.JobStatusSuccess)).
Proof.
  intros (Hs & Ht & Hd).
  assert (Hchar :
    IsRunning j = true /\ Status j = database.JobStatusSuccess <->
    database.TasksStarted j <> zero /\ database.TasksFinished j <> zero
    /\ ShouldDeploy j = true /\ database.DeployFinished j = zero).
  { rewrite <- (After_zero_true Hs), <- (After_zero_true Ht),
      <- (After_zero_false Hd).
    rewrite IsRunning_eq, Done_eq, Status_cases, ShouldDeploy_eq.
    destruct (After (database.TasksStarted j) zero),
      (After (database.TasksFinished j) zero),
      (After (database.DeployFinished j) zero),
      (Passed j), (Nat.eqb (List.length (deployCommands j)) 0);
      simpl; split; intros H; decompose [and] H;
      repeat split; solve [reflexivity | discriminate]. }
  split; [exact Hchar | ].
  intros Hex Hboth. apply Hchar in Hboth.
  destruct Hboth as (_ & _ & Hsd & Hdf).
  destruct Hex as [Hex | Hex]; congruence.
Qed.

(** The timestamps stay clock readings or zero: a job is created with
    all three at zero, and each is only ever set to the reading of the
    clock. *)
Lemma timestampsOK_preserved (now : Time) (j : Job) :
  notBeforeZero now ->
  database.timestampsOK j ->
  database.timestampsOK (database.Started now j)
  /\ database.timestampsOK (database.TasksDone now j)
  /\ database.timestampsOK (database.DeployDone now j)
  /\ database.timestampsOK (database.Cancel j).
Proof.
  unfold database.timestampsOK. simpl. intros Hn (Hs & Ht & Hd).
  repeat split; solve [apply Hn | apply Hs | apply Ht | apply Hd].
Qed.

End JobFacts.

(** C1 at job 7 of the fixtures: finished, two logs, both passed. *)
Lemma Status_spec_witness :
  (database.Status (fun b : bool => b) fixtures.logsOf fixtures.job7
     = database.JobStatusPending
   <-> database.TasksFinished fixtures.job7 = gotime.zero)
  /\ (database.TasksFinished fixtures.job7 <> gotime.zero ->
      (database.Status (fun b : bool => b) fixtures.logsOf fixtures.job7
         = database.JobStatusSuccess
       <-> database.everyLogPassed (fun b : bool => b) fixtures.logsOf
             fixtures.job7)
      /\ (database.Status (fun b : bool => b) fixtures.logsOf fixtures.job7
            = database.JobStatusError
          <-> ~ database.everyLogPassed (fun b : bool => b) fixtures.logsOf
                  fixtures.job7)).
Proof.
  apply (@Status_spec unit bool (fun b : bool => b) fixtures.logsOf
           fixtures.job7).
  unfold gotime.notBeforeZero. simpl. lia.
Defined.

(** C2 at job 7 of the fixtures: the deploy stage is outstanding. *)
Lemma Done_spec_witness :
  database.Done fixtures.deploy (fun b : bool => b) fixtures.logsOf
    fixtures.commandsOf fixtures.job7 = true
  <-> database.TasksFinished fixtures.job7 <> gotime.zero
      /\ (database.ShouldDeploy fixtures.deploy (fun b : bool => b)
            fixtures.logsOf fixtures.commandsOf fixtures.job7 = false
          \/ database.DeployFinished fixtures.job7 <> gotime.zero).
Proof.
  apply (@Done_spec unit string fixtures.kind fixtures.deploy bool
           (fun b : bool => b) fixtures.logsOf fixtures.commandsOf
           fixtures.job7);
    unfold gotime.notBeforeZero; simpl; lia.
Defined.

(** C3 fails at job 7 of the fixtures, whose build stage has passed and
    whose deploy stage has not ended: it is running and reads success. *)
Lemma IsRunning_and_Success_together :
  database.IsRunning fixtures.deploy (fun b : bool => b) fixtures.logsOf
    fixtures.commandsOf fixtures.job7 = true
  /\ database.Status (fun b : bool => b) fixtures.logsOf fixtures.job7
     = database.JobStatusSuccess.
Proof. split; reflexivity. Qed.

(** The amended C3 at the same job once its deploy stage has ended. *)
Lemma IsRunning_Success_spec_witness :
  ~ (database.IsRunning fixtures.deploy (fun b : bool => b) fixtures.logsOf
       fixtures.commandsOf fixtures.job7deployed = true
     /\ database.Status (fun b : bool => b) fixtures.logsOf
          fixtures.job7deployed = database.JobStatusSuccess).
Proof.
  apply (@IsRunning_Success_spec unit string fixtures.kind fixtures.deploy
           bool (fun b : bool => b) fixtures.logsOf fixtures.commandsOf
           fixtures.job7deployed).
  - unfold database.timestampsOK, gotime.notBeforeZero. simpl. lia.
  - right. simpl. discriminate.
Defined.

(** C4 fails at job 7 once its deploy command has failed: a deploy
    command is configured and every log of the build stage passed, yet
    [ShouldDeploy()] is false. *)
Lemma ShouldDeploy_after_failed_deploy :
  (1 <= List.length
          (database.deployCommands fixtures.deploy fixtures.commandsOf
             fixtures.job7failedDeploy))%nat
  /\ database.buildStagePassed fixtures.build
       (fun c : fixtures.stageLog => snd c) fixtures.stageLogsOf
       (fun c : fixtures.stageLog => fst c) fixtures.job7failedDeploy
  /\ database.ShouldDeploy fixtures.deploy
       (fun c : fixtures.stageLog => snd c) fixtures.stageLogsOf
       fixtures.commandsOf fixtures.job7failedDeploy = false
  /\ ~ (database.ShouldDeploy fixtures.deploy
          (fun c : fixtures.stageLog => snd c) fixtures.stageLogsOf
          fixtures.commandsOf fixtures.job7failedDeploy = true
        <-> (1 <= List.length
                    (database.deployCommands fixtures.deploy
                       fixtures.commandsOf fixtures.job7failedDeploy))%nat
            /\ database.buildStagePassed fixtures.build
                 (fun c : fixtures.stageLog => snd c) fixtures.stageLogsOf
                 (fun c : fixtures.stageLog => fst c)
                 fixtures.job7failedDeploy).
Proof.
  assert (Hlen : (1 <= List.length
                         (database.deployCommands fixtures.deploy
                            fixtures.commandsOf
                            fixtures.job7failedDeploy))%nat)
    by (simpl; lia).
  assert (Hbuild : database.buildStagePassed fixtures.build
                     (fun c : fixtures.stageLog => snd c)
                     fixtures.stageLogsOf
                     (fun c : fixtures.stageLog => fst c)
                     fixtures.job7failedDeploy).
  { unfold database.buildStagePassed. simpl.
    repeat constructor. simpl. discriminate. }
  split; [exact Hlen | ]. split; [exact Hbuild | ].
  split; [reflexivity | ].
  intros [_ H]. specialize (H (conj Hlen Hbuild)). discriminate H.
Qed.

(** Before a job has started no log is recorded, and with a deploy
    command configured [ShouldDeploy()] is already true. *)
Lemma ShouldDeploy_before_start :
  database.TasksStarted fixtures.job9 = gotime.zero
  /\ database.ShouldDeploy fixtures.deploy (fun b : bool => b)
       fixtures.logsOf fixtures.commandsOf fixtures.job9 = true.
Proof. split; reflexivity. Qed.

(** ** Splitting a reference *)

Section SplitFacts.
Import gostrings.

Lemma Split_not_nil (s : string) (sep : ascii) : Split s sep <> [].
Proof.
  destruct s as [| c rest]; simpl; [discriminate | ].
  destruct (Ascii.eqb c sep); [discriminate | ].
  destruct (Split rest sep); discriminate.
Qed.

(** One segment more than there are separators. *)
Lemma Split_length (s : string) (sep : ascii) :
  List.length (Split s sep) = S (Count s sep).
Proof.
  induction s as [| c rest IH]; simpl; [reflexivity | ].
  destruct (Ascii.eqb c sep); simpl; [now rewrite IH | ].
  destruct (Split rest sep) as [| seg segs] eqn:E; simpl in *.
  - discriminate IH.
  - exact IH.
Qed.

(** A segment holds no separator. *)
Lemma Split_segments (s : string) (sep : ascii) :
  Forall (fun seg => Count seg sep = 0%nat) (Split s sep).
Proof.
  induction s as [| c rest IH]; simpl.
  - constructor; [reflexivity | constructor].
  - destruct (Ascii.eqb c sep) eqn:Ec.
    + constructor; [reflexivity | exact IH].
    + destruct (Split rest sep) as [| seg segs].
      * constructor; [simpl; now rewrite Ec | constructor].
      * inversion IH; subst. constructor; [ | assumption].
        simpl. now rewrite Ec.
Qed.

(** Splitting at the first separator. *)
Lemma Split_app (a b : string) (sep : ascii) :
  Count a sep = 0%nat ->
  Split (a ++ String sep b) sep = a :: Split b sep.
Proof.
  induction a as [| c rest IH]; simpl; intros H.
  - now rewrite Ascii.eqb_refl.
  - destruct (Ascii.eqb c sep); [discriminate | ].
    rewrite (IH H). reflexivity.
Qed.

Lemma Join_cons (e e' : string) (rest : list string) (sep : string) :
  Join (e :: e' :: rest) sep = (e ++ sep ++ Join (e' :: rest) sep)%string.
Proof. reflexivity. Qed.

(** Joining the segments gives the string back. *)
Lemma Join_Split (s : string) (sep : ascii) :
  Join (Split s sep) (String sep EmptyString) = s.
Proof.
  induction s as [| c rest IH]; simpl; [reflexivity | ].
  destruct (Ascii.eqb_spec c sep) as [-> | Hne];
    destruct (Split rest sep) as [| seg segs] eqn:E;
    try (now apply Split_not_nil in E).
  - rewrite Join_cons, IH. reflexivity.
  - destruct segs as [| seg' segs'].
    + simpl in *. now rewrite IH.
    + rewrite Join_cons in *. rewrite <- IH. reflexivity.
Qed.

End SplitFacts.

Lemma index_Returned (A : Type) (s : list A) (i : nat) :
  (exists x, goruntime.index s i = goruntime.Returned x)
  <-> (i < List.length s)%nat.
Proof.
  unfold goruntime.index. rewrite <- nth_error_Some.
  destruct (nth_error s i) as [x |]; split.
  - intros _. discriminate.
  - intros _. now exists x.
  - intros [x H]. discriminate H.
  - intros H. now contradiction H.
Qed.

Lemma index_Panicked (A : Type) (s : list A) (i : nat) :
  (List.length s <= i)%nat ->
  goruntime.index s i
  = goruntime.Panicked (goruntime.IndexOutOfRange i (List.length s)).
Proof.
  intros H. unfold goruntime.index.
  apply nth_error_None in H. now rewrite H.
Qed.

(** ** The webhook *)

Section CallbackFacts.
Import goruntime callbacks.

Lemma Branch_eq (g : GitHubCallback) :
  Branch g = index (gostrings.Split (Ref g) "/") 2.
Proof. reflexivity. Qed.

(** C10. [Branch()] reads index 2 of the segments of [Ref]: it returns
    exactly when [Ref] holds at least two separators, it panics with an
    index out of range otherwise, as it does on the empty [Ref] of a
    callback that was not decoded. *)
Theorem Branch_in_bounds_iff (g : GitHubCallback) :
  ((exists b, Branch g = Returned b)
   <-> (2 <= gostrings.Count (Ref g) "/")%nat)
  /\ ((gostrings.Count (Ref g) "/" < 2)%nat ->
      Branch g
      = Panicked (IndexOutOfRange 2 (S (gostrings.Count (Ref g) "/"))))
  /\ Branch zeroCallback = Panicked (IndexOutOfRange 2 1).
Proof.
  rewrite Branch_eq. repeat split.
  - intros H. apply index_Returned in H.
    rewrite Split_length in H. lia.
  - intros H. apply index_Returned.
    rewrite Split_length. lia.
  - intros H. rewrite index_Panicked; rewrite Split_length;
      [reflexivity | lia].
Qed.

(** C5 at a branch name with a separator.  Of [refs/heads/feature/x]
    the code returns [feature], the segment at index 2: it is not the
    final path segment [x], nor the name of the branch. *)
Lemma Branch_not_final_segment :
  Branch (fixtures.push "refs/heads/feature/x" false) = Returned "feature"
  /\ finalSegment (Ref (fixtures.push "refs/heads/feature/x" false)) = "x"
  /\ Branch (fixtures.push "refs/heads/feature/x" false)
     <> Returned
          (finalSegment (Ref (fixtures.push "refs/heads/feature/x" false))).
Proof. repeat split. discriminate. Qed.

(** For a reference of exactly three segments ([refs/heads/main]) the
    segment at index 2 is the final one. *)
Lemma Branch_three_segments (g : GitHubCallback) :
  gostrings.Count (Ref g) "/" = 2%nat ->
  Branch g = Returned (finalSegment (Ref g)).
Proof.
  intros H. unfold finalSegment. rewrite Branch_eq.
  pose proof (Split_length (Ref g) "/") as Hl. rewrite H in Hl.
  destruct (gostrings.Split (Ref g) "/") as [| a [| b [| c [| d l]]]];
    try discriminate Hl.
  reflexivity.
Qed.

Lemma Branch_three_segments_witness :
  Branch (fixtures.push "refs/heads/main" false)
  = Returned (finalSegment (Ref (fixtures.push "refs/heads/main" false))).
Proof.
  apply (Branch_three_segments (fixtures.push "refs/heads/main" false)).
  reflexivity.
Defined.

Lemma ShouldBuild_eq (g : GitHubCallback) : ShouldBuild g = negb (Deleted g).
Proof. unfold ShouldBuild. destruct (Deleted g); reflexivity. Qed.

Variable Unmarshal : string -> GitHubCallback * option string.

(** Every way through [parseGitHub], by what was decoded. *)
Lemma parseGitHub_cases (now : gotime.Time) (body : string) (w : World) :
  let cb := fst (Unmarshal body) in
  let err := snd (Unmarshal body) in
  parseGitHub Unmarshal now body w =
    match Branch cb with
    | Returned branch =>
        match err with
        | Some _ =>
            (Panicked (PanicString "Could not unmarshal request"),
             {| jobs := jobs w; stdlog := stdlog w ++ [body] |})
        | None =>
            if Deleted cb then
              (Returned tt,
               {| jobs := jobs w;
                  stdlog := stdlog w ++
                    [golog.Sprintln
                       ["Not adding"; URL cb; branch; "to build queue"]] |})
            else
              send {| logging.URL := URL cb;
                      logging.Branch := branch;
                      logging.Timestamp := now;
                      logging.Commit := Commit cb;
                      logging.Name := fst (By cb);
                      logging.Email := snd (By cb) |} w
        end
    | Panicked p => (Panicked p, w)
    | Exited c => (Exited c, w)
    | Blocked => (Blocked, w)
    end.
Proof.
  unfold parseGitHub. destruct (Unmarshal body) as [cb err].
  cbv zeta. cbn [fst snd By]. unfold bind, lift. rewrite ShouldBuild_eq.
  destruct (Branch cb) as [branch | p | c |]; try reflexivity.
  destruct err as [e |]; [reflexivity | ].
  destruct (Deleted cb); reflexivity.
Qed.

(** [Branch()] returns or panics with an index out of range. *)
Lemma Branch_cases (g : GitHubCallback) :
  ((2 <= gostrings.Count (Ref g) "/")%nat /\ exists b, Branch g = Returned b)
  \/ ((gostrings.Count (Ref g) "/" < 2)%nat
      /\ Branch g
         = Panicked (IndexOutOfRange 2 (S (gostrings.Count (Ref g) "/")))).
Proof.
  rewrite Branch_eq.
  destruct (Nat.le_gt_cases 2 (gostrings.Count (Ref g) "/")) as [H | H].
  - left. split; [exact H | ]. apply index_Returned.
    rewrite Split_length. lia.
  - right. split; [exact H | ].
    rewrite index_Panicked; rewrite Split_length; [reflexivity | lia].
Qed.

(** C6. For a payload with the [Deleted] flag set, [ShouldBuild()] is
    false and [parseGitHub] leaves the build queue as it was, however it
    ends; for a payload with the flag unset, [ShouldBuild()] is true. *)
Theorem deleted_not_built (now : gotime.Time) (body : string) (w : World) :
  let cb := fst (Unmarshal body) in
  (Deleted cb = true ->
   ShouldBuild cb = false
   /\ jobs (snd (parseGitHub Unmarshal now body w)) = jobs w)
  /\ (Deleted cb = false -> ShouldBuild cb = true).
Proof.
  intros cb. rewrite ShouldBuild_eq. split.
  - intros Hd. rewrite Hd. split; [reflexivity | ].
    rewrite parseGitHub_cases. fold cb. rewrite Hd.
    destruct (Branch cb); [ | reflexivity | reflexivity | reflexivity].
    destruct (snd (Unmarshal body)); reflexivity.
  - intros Hd. now rewrite Hd.
Qed.


End CallbackFacts.



(** On a body that is not JSON nothing is decoded: the empty reference
    has no third segment, and the call panics before its error check. *)
Lemma not_json_out_of_range :
  callbacks.parseGitHub fixtures.decode fixtures.t1 "not json" fixtures.idle
  = (goruntime.Panicked (goruntime.IndexOutOfRange 2 1), fixtures.idle).
Proof. reflexivity. Qed.

(** The deletion of [feature/x] is logged and not queued. *)
Lemma deletion_logged :
  callbacks.parseGitHub fixtures.decode fixtures.t1 "delete-feature-x"
    fixtures.idle
  = (goruntime.Returned tt,
     {| callbacks.jobs := callbacks.jobs fixtures.idle;
        callbacks.stdlog :=
          ["Not adding https://example.org/leeroy feature to build queue"] |}).
Proof. reflexivity. Qed.

(** ** The HipChat sink *)

Section HipChatFacts.
Import goruntime notification.

Lemma string_app_assoc (a b c : string) :
  ((a ++ b) ++ c = a ++ b ++ c)%string.
Proof. induction a as [| x a IH]; simpl; [reflexivity | now rewrite IH]. Qed.

(** The encoded form, member by member: the keys come sorted. *)
Lemma toURLEncoded_eq (h : hipchatPayload) :
  toURLEncoded h =
    ("color=" ++ (if Status h then "green" else "red")
     ++ "&from=" ++ url.QueryEscape (From h)
     ++ "&message=" ++ url.QueryEscape (Message h)
     ++ "&message_format=" ++ url.QueryEscape (Format h)
     ++ "&notify=" ++ (if Notify h then "1" else "2")
     ++ "&room_id=" ++ url.QueryEscape (Room h))%string.
Proof.
  destruct h as [room from color message notify format status].
  destruct notify, status; cbn; rewrite !string_app_assoc; reflexivity.
Qed.

Lemma color_carried (h : hipchatPayload) :
  url.carried "color" (toURLEncoded h)
  = Some (if Status h then "green" else "red").
Proof.
  rewrite toURLEncoded_eq. unfold url.carried, url.pairsOf.
  destruct (Status h).
  - change ("color=" ++ "green" ++ "&from=" ++ ?x)%string
      with ("color=green" ++ String "&" ("from=" ++ x))%string.
    rewrite Split_app by reflexivity. reflexivity.
  - change ("color=" ++ "red" ++ "&from=" ++ ?x)%string
      with ("color=red" ++ String "&" ("from=" ++ x))%string.
    rewrite Split_app by reflexivity. reflexivity.
Qed.

(** C9. The encoded message of a notification carries the colour
    [green] exactly when the status of the notification is pass, and
    [red] exactly when it is fail. *)
Theorem color_follows_status (n : Notification.t) (channel : string) :
  let encoded := toURLEncoded (notToHipChapt n channel) in
  (url.carried "color" encoded = Some "green"
   <-> Notification.Status n = true)
  /\ (url.carried "color" encoded = Some "red"
      <-> Notification.Status n = false).
Proof.
  cbv zeta. rewrite color_carried. simpl.
  destruct (Notification.Status n); repeat split;
    solve [reflexivity | discriminate].
Qed.

Variable DB : Type.
Variable Post : string -> string -> string -> option string.

(** [hipchat] returns in both branches; a failed delivery adds its error
    to the log and nothing else changes. *)
Lemma hipchat_returns (n : Notification.t) (key chl : string)
      (w : process.World DB) :
  hipchat Post n key chl w =
    (Returned tt,
     {| process.store := process.store w;
        process.stdlog :=
          process.stdlog w ++
          match Post (api key) "application/x-www-form-urlencoded"
                     (toURLEncoded (notToHipChapt n chl)) with
          | Some e => [e]
          | None => []
          end |}).
Proof.
  unfold hipchat. destruct (Post _ _ _) as [e |].
  - reflexivity.
  - unfold ret. rewrite app_nil_r. destruct w; reflexivity.
Qed.

End HipChatFacts.

(** ** The pull request sink, and both sinks on failure *)

Section SinkFacts.
Import goruntime.

Variable DB : Type.
Variable Post : string -> string -> string -> option string.
Variable ConfigURL : DB -> string.
Variable Repo : Type.
Variable RepositoryForURL : DB -> string -> Repo.
Variable outerErr : option string.
Variable AccessKey : Repo -> string.
Variable Success : logging.Job -> bool.
Variable Hex : logging.Job -> string.
Variable PRCallback : Type.
Variable CommentsURL : PRCallback -> string.
Variable Marshal : github.comment -> string * option string.
Variable githubRequest : string -> string -> string -> string -> option string.

Local Abbreviation PostPR :=
  (github.PostPR ConfigURL RepositoryForURL outerErr AccessKey Success Hex
     CommentsURL Marshal githubRequest).
Local Abbreviation firstError :=
  (github.firstError ConfigURL RepositoryForURL outerErr AccessKey Success
     Hex CommentsURL Marshal githubRequest).

Lemma Fatalln_exits (e : string) (w : process.World DB) :
  process.Fatalln [e] w
  = (Exited 1, {| process.store := process.store w;
                  process.stdlog := process.stdlog w ++ [e] |}).
Proof. reflexivity. Qed.

(** [PostPR] ends the process at the first error, after logging it, and
    returns when there is none. *)
Lemma PostPR_cases (job : logging.Job) (pc : PRCallback)
      (w : process.World DB) :
  PostPR job pc w =
    match firstError job pc (process.store w) with
    | Some e =>
        (Exited 1, {| process.store := process.store w;
                      process.stdlog := process.stdlog w ++ [e] |})
    | None => (Returned tt, w)
    end.
Proof.
  unfold github.PostPR, github.firstError, bind, gets. cbv zeta.
  destruct outerErr as [e1 |]; [reflexivity | ].
  unfold github.fatalIf at 1. unfold ret at 1.
  destruct (Marshal _) as [m [e2 |]]; [reflexivity | ].
  unfold github.fatalIf at 1. unfold ret at 1.
  unfold github.fatalIf.
  destruct (githubRequest _ _ _ _) as [e3 |]; reflexivity.
Qed.

(** The serialisation and the request are the two calls of [PostPR] that
    return an error; the lookup of the repository returns none. *)
Lemma firstError_steps (job : logging.Job) (pc : PRCallback) (db : DB) :
  outerErr = None ->
  firstError job pc db =
    match snd (Marshal (github.newComment Success Hex job (ConfigURL db))) with
    | Some e => Some e
    | None =>
        githubRequest "POST" (CommentsURL pc)
          (AccessKey (RepositoryForURL db (logging.URL job)))
          (fst (Marshal (github.newComment Success Hex job (ConfigURL db))))
    end.
Proof.
  intros H. unfold github.firstError. cbv zeta. rewrite H.
  destruct (Marshal _) as [m [e |]]; reflexivity.
Qed.


End SinkFacts.


(** The chat sink on the same day: the failure is logged, the call
    returns. *)
Lemma hipchat_logs_and_returns :
  notification.hipchat (fun _ _ _ => Some "dial tcp: connection refused")
    fixtures.failed "key" "builds" fixtures.quiet
  = (goruntime.Returned tt,
     {| process.store := "https://ci.example.org/";
        process.stdlog := ["dial tcp: connection refused"] |}).
Proof. reflexivity. Qed.

(** The message sent for the failed build is red. *)
Lemma failed_build_is_red :
  notification.toURLEncoded
    (notification.notToHipChapt fixtures.failed "builds")
  = "color=red&from=Leeroy&message=main%3A+build+failed&message_format=text&notify=1&room_id=builds".
Proof. reflexivity. Qed.

(* ================================================================== *)
(** * Part III: further properties of the code                         *)
(* ================================================================== *)

(** ** The life of a job *)

Section JobLife.
Import gotime.

Variable Repository : Type.
Variable Command : Type.
Variable CommandKind : Type.
Variable CommandKindBuild : CommandKind.
Variable CommandKindDeploy : CommandKind.
Variable CommandLog : Type.
Variable CommandLog_Passed : CommandLog -> bool.
Variable GetCommandLogsForJob : Z -> list CommandLog.
Variable GetCommands : Repository -> string -> CommandKind -> list Command.

Local Abbreviation Job := (database.Job Repository CommandLog).
Local Abbreviation Passed :=
  (database.Passed CommandLog_Passed GetCommandLogsForJob).
Local Abbreviation Status :=
  (database.Status CommandLog_Passed GetCommandLogsForJob).
Local Abbreviation ShouldBuild :=
  (database.ShouldBuild CommandKindBuild CommandLog_Passed
     GetCommandLogsForJob GetCommands).
Local Abbreviation ShouldDeploy :=
  (database.ShouldDeploy CommandKindDeploy CommandLog_Passed
     GetCommandLogsForJob GetCommands).
Local Abbreviation Done :=
  (database.Done CommandKindDeploy CommandLog_Passed
     GetCommandLogsForJob GetCommands).
Local Abbreviation IsRunning :=
  (database.IsRunning CommandKindDeploy CommandLog_Passed
     GetCommandLogsForJob GetCommands).
Local Abbreviation everyLogPassed :=
  (database.everyLogPassed CommandLog_Passed GetCommandLogsForJob).
Local Abbreviation buildCommands :=
  (database.buildCommands CommandKindBuild GetCommands).

(** [ShouldBuild()] is true exactly when at least one build command is
    configured for the branch of the job and every command log of the
    job records a passing outcome: with build commands configured it
    turns false as soon as one log fails, and without any it is false
    whatever the logs say. *)
Theorem ShouldBuild_spec (j : Job) :
  (ShouldBuild j = true <->
   (1 <= List.length (buildCommands j))%nat /\ everyLogPassed j)
  /\ (List.length (buildCommands j) = 0%nat -> ShouldBuild j = false)
  /\ (~ everyLogPassed j -> ShouldBuild j = false).
Proof.
  unfold database.ShouldBuild, database.buildCommands.
  rewrite <- !Passed_iff.
  destruct (GetCommands _ _ _) as [| c cs]; cbn -[database.Passed].
  - repeat split; try discriminate; try reflexivity. intros [H _]. lia.
  - repeat split; try discriminate.
    + lia.
    + apply H.
    + intros [_ H]. exact H.
    + intros H. destruct (Passed j); [now contradiction H | reflexivity].
Qed.

(** A job that is done never reads pending: its status is success or
    error. *)
Theorem Done_not_pending (j : Job) :
  Done j = true ->
  Status j = database.JobStatusSuccess \/ Status j = database.JobStatusError.
Proof.
  rewrite Done_eq, Status_cases, andb_true_iff. intros [HA _]. rewrite HA.
  destruct (Passed j); [left | right]; reflexivity.
Qed.

(** A job that reads error is done and not running, whatever its other
    timestamps are: after a failed command the deploy stage is not waited
    for. *)
Theorem error_is_done (j : Job) :
  Status j = database.JobStatusError ->
  ShouldDeploy j = false /\ Done j = true /\ IsRunning j = false.
Proof.
  rewrite IsRunning_eq, Done_eq, ShouldDeploy_eq, Status_cases.
  destruct (After (database.TasksFinished j) zero); [ | discriminate].
  destruct (Passed j); [discriminate | ]. intros _.
  rewrite !andb_false_r. simpl. rewrite ?andb_false_r. auto.
Qed.

(** [Started] on a job whose tasks have not finished: with a clock
    reading after the zero instant the job is running, is not done and
    still reads pending. *)
Theorem started_job_runs (now : Time) (j : Job) :
  After now zero = true ->
  After (database.TasksFinished j) zero = false ->
  IsRunning (database.Started now j) = true
  /\ Done (database.Started now j) = false
  /\ Status (database.Started now j) = database.JobStatusPending.
Proof.
  intros Hn Hf. rewrite IsRunning_eq, Done_eq, Status_cases. simpl.
  rewrite Hn, Hf. auto.
Qed.

(** [TasksDone] with a clock reading after the zero instant settles the
    status: success when every log passed, error otherwise, and the job
    is then done unless it should deploy and has not yet. *)
Theorem finished_job_status (now : Time) (j : Job) :
  After now zero = true ->
  Status (database.TasksDone now j)
  = (if Passed j then database.JobStatusSuccess
     else database.JobStatusError)
  /\ Done (database.TasksDone now j)
     = (negb (ShouldDeploy j) || After (database.DeployFinished j) zero).
Proof.
  intros Hn. rewrite Done_eq, Status_cases. simpl. rewrite Hn. auto.
Qed.

(** [TasksDone] followed by [DeployDone], both with clock readings after
    the zero instant, ends the job: it is done and no longer running,
    whether or not it was started and whatever was configured. *)
Theorem deployed_job_done (now now' : Time) (j : Job) :
  After now zero = true ->
  After now' zero = true ->
  Done (database.DeployDone now' (database.TasksDone now j)) = true
  /\ IsRunning (database.DeployDone now' (database.TasksDone now j)) = false.
Proof.
  intros Hn Hn'. rewrite IsRunning_eq, Done_eq. simpl. rewrite Hn, Hn'.
  rewrite orb_true_r, andb_false_r. auto.
Qed.

(** [DeployDone] alone does not end a job: without finished tasks the
    job is not done. *)
Lemma deploy_alone_not_done (now : Time) (j : Job) :
  After (database.TasksFinished j) zero = false ->
  Done (database.DeployDone now j) = false.
Proof. intros Hf. rewrite Done_eq. simpl. now rewrite Hf. Qed.

(** [Cancel] sets the flag and nothing else that is read: status, done
    and running are as before, so a running job that is cancelled keeps
    running until its timestamps are set. *)
Lemma Cancel_keeps_state (j : Job) :
  database.Cancelled (database.Cancel j) = true
  /\ Status (database.Cancel j) = Status j
  /\ Done (database.Cancel j) = Done j
  /\ IsRunning (database.Cancel j) = IsRunning j
  /\ database.Cancel (database.Cancel j) = database.Cancel j.
Proof. repeat split. Qed.

End JobLife.

(** ** Command logs that are only ever appended *)

Section LogsGrow.

Variable Repository : Type.
Variable CommandLog : Type.
Variable CommandLog_Passed : CommandLog -> bool.

(** The store at two moments: [earlier], and [later] when more commands
    have run. *)
Variable earlier later : Z -> list CommandLog.

Local Abbreviation Job := (database.Job Repository CommandLog).

Lemma allPassed_app (l l' : list CommandLog) :
  database.allPassed CommandLog_Passed (l ++ l')
  = database.allPassed CommandLog_Passed l
    && database.allPassed CommandLog_Passed l'.
Proof.
  induction l as [| c l IH]; simpl; [reflexivity | ].
  destruct (CommandLog_Passed c); simpl; [exact IH | reflexivity].
Qed.

(** When the logs of a job only grow, its verdict can only get worse: a
    job that reads error keeps reading error, and a job that has passed
    with the later logs had passed with the earlier ones. *)
Theorem error_is_final (j : Job) (more : list CommandLog) :
  later (database.ID j) = earlier (database.ID j) ++ more ->
  (database.Status CommandLog_Passed earlier j = database.JobStatusError ->
   database.Status CommandLog_Passed later j = database.JobStatusError)
  /\ (database.Passed CommandLog_Passed later j = true ->
      database.Passed CommandLog_Passed earlier j = true)
  /\ database.Passed CommandLog_Passed later j
     = database.Passed CommandLog_Passed earlier j
       && database.allPassed CommandLog_Passed more.
Proof.
  intros Hg.
  assert (Hp : database.Passed CommandLog_Passed later j
               = database.Passed CommandLog_Passed earlier j
                 && database.allPassed CommandLog_Passed more).
  { unfold database.Passed. rewrite Hg. apply allPassed_app. }
  repeat split.
  - rewrite !Status_cases, Hp.
    destruct (gotime.After (database.TasksFinished j) gotime.zero);
      [ | discriminate].
    destruct (database.Passed CommandLog_Passed earlier j);
      [discriminate | reflexivity].
  - rewrite Hp, andb_true_iff. intros [H _]. exact H.
  - exact Hp.
Qed.

End LogsGrow.

(** ** The URL of a job *)

Section JobURL.

Variable Repository : Type.
Variable CommandLog : Type.
Variable ConfigURL : string.

Local Abbreviation Job := (database.Job Repository CommandLog).

Lemma string_app_inv_head (a b c : string) :
  (a ++ b)%string = (a ++ c)%string -> b = c.
Proof.
  induction a as [| x a IH]; simpl; intros H; [exact H | ].
  injection H as H. exact (IH H).
Qed.

Lemma FormatInt_inj (x y : Z) :
  gofmt.FormatInt x = gofmt.FormatInt y -> x = y.
Proof.
  unfold gofmt.FormatInt. intros H.
  assert (Hi : Some (Z.to_int x) = Some (Z.to_int y)).
  { rewrite <- !NilEmpty.isi. now rewrite H. }
  injection Hi as Hi.
  rewrite <- (DecimalZ.of_to x), <- (DecimalZ.of_to y). now rewrite Hi.
Qed.

(** Under one configuration two jobs have the same URL exactly when they
    have the same ID: the URL of a job identifies it. *)
Theorem URL_identifies_job (j j' : Job) :
  database.URL ConfigURL j = database.URL ConfigURL j'
  <-> database.ID j = database.ID j'.
Proof.
  unfold database.URL. split.
  - intros H. apply string_app_inv_head in H.
    apply (string_app_inv_head "/") in H. now apply FormatInt_inj.
  - intros ->. reflexivity.
Qed.

End JobURL.

(** The URL of job 7 of the fixtures on a server. *)
Lemma URL_of_job7 :
  database.URL "https://ci.example.org" fixtures.job7
  = "https://ci.example.org/7".
Proof. reflexivity. Qed.

(** ** The life of job 7 and job 9 of the fixtures *)

(** Job 7, deployed, is done: it does not read pending. *)
Lemma Done_not_pending_witness :
  database.Status (fun b : bool => b) fixtures.logsOf fixtures.job7deployed
  = database.JobStatusSuccess
  \/ database.Status (fun b : bool => b) fixtures.logsOf
       fixtures.job7deployed
     = database.JobStatusError.
Proof.
  apply (Done_not_pending fixtures.deploy (fun b : bool => b)
           fixtures.logsOf fixtures.commandsOf fixtures.job7deployed).
  reflexivity.
Defined.

(** Job 7 in the store where its second command failed: it reads error,
    so it is done although a deploy command is configured and
    [DeployFinished] is unset. *)
Lemma error_is_done_witness :
  database.ShouldDeploy fixtures.deploy (fun b : bool => b)
    fixtures.failingLogsOf fixtures.commandsOf fixtures.job7 = false
  /\ database.Done fixtures.deploy (fun b : bool => b)
       fixtures.failingLogsOf fixtures.commandsOf fixtures.job7 = true
  /\ database.IsRunning fixtures.deploy (fun b : bool => b)
       fixtures.failingLogsOf fixtures.commandsOf fixtures.job7 = false.
Proof.
  apply (error_is_done fixtures.deploy (fun b : bool => b)
           fixtures.failingLogsOf fixtures.commandsOf fixtures.job7).
  reflexivity.
Defined.

(** Job 9 is started. *)
Lemma started_job_runs_witness :
  database.IsRunning fixtures.deploy (fun b : bool => b) fixtures.logsOf
    fixtures.commandsOf (database.Started fixtures.t1 fixtures.job9) = true
  /\ database.Done fixtures.deploy (fun b : bool => b) fixtures.logsOf
       fixtures.commandsOf (database.Started fixtures.t1 fixtures.job9)
     = false
  /\ database.Status (fun b : bool => b) fixtures.logsOf
       (database.Started fixtures.t1 fixtures.job9)
     = database.JobStatusPending.
Proof.
  apply (started_job_runs fixtures.deploy (fun b : bool => b)
           fixtures.logsOf fixtures.commandsOf fixtures.t1 fixtures.job9);
    reflexivity.
Defined.

(** Job 9, started, finishes its tasks. *)
Lemma finished_job_status_witness :
  database.Status (fun b : bool => b) fixtures.logsOf
    (database.TasksDone fixtures.t2
       (database.Started fixtures.t1 fixtures.job9))
  = (if database.Passed (fun b : bool => b) fixtures.logsOf
          (database.Started fixtures.t1 fixtures.job9)
     then database.JobStatusSuccess else database.JobStatusError)
  /\ database.Done fixtures.deploy (fun b : bool => b) fixtures.logsOf
       fixtures.commandsOf
       (database.TasksDone fixtures.t2
          (database.Started fixtures.t1 fixtures.job9))
     = (negb (database.ShouldDeploy fixtures.deploy (fun b : bool => b)
                fixtures.logsOf fixtures.commandsOf
                (database.Started fixtures.t1 fixtures.job9))
        || gotime.After
             (database.DeployFinished
                (database.Started fixtures.t1 fixtures.job9))
             gotime.zero).
Proof.
  apply (finished_job_status fixtures.deploy (fun b : bool => b)
           fixtures.logsOf fixtures.commandsOf fixtures.t2
           (database.Started fixtures.t1 fixtures.job9)).
  reflexivity.
Defined.

(** Job 9 finishes its tasks and its deploy stage. *)
Lemma deployed_job_done_witness :
  database.Done fixtures.deploy (fun b : bool => b) fixtures.logsOf
    fixtures.commandsOf
    (database.DeployDone fixtures.t2
       (database.TasksDone fixtures.t2 fixtures.job9)) = true
  /\ database.IsRunning fixtures.deploy (fun b : bool => b) fixtures.logsOf
       fixtures.commandsOf
       (database.DeployDone fixtures.t2
          (database.TasksDone fixtures.t2 fixtures.job9)) = false.
Proof.
  apply (deployed_job_done fixtures.deploy (fun b : bool => b)
           fixtures.logsOf fixtures.commandsOf fixtures.t2 fixtures.t2
           fixtures.job9);
    reflexivity.
Defined.

(** Job 7 before and after its second command, which failed. *)
Lemma error_is_final_witness :
  (database.Status (fun b : bool => b) fixtures.earlierLogsOf fixtures.job7
   = database.JobStatusError ->
   database.Status (fun b : bool => b) fixtures.failingLogsOf fixtures.job7
   = database.JobStatusError)
  /\ (database.Passed (fun b : bool => b) fixtures.failingLogsOf
        fixtures.job7 = true ->
      database.Passed (fun b : bool => b) fixtures.earlierLogsOf
        fixtures.job7 = true)
  /\ database.Passed (fun b : bool => b) fixtures.failingLogsOf
       fixtures.job7
     = database.Passed (fun b : bool => b) fixtures.earlierLogsOf
         fixtures.job7
       && database.allPassed (fun b : bool => b) [false].
Proof.
  apply (@error_is_final unit bool (fun b : bool => b)
           fixtures.earlierLogsOf fixtures.failingLogsOf fixtures.job7
           [false]).
  reflexivity.
Defined.

(** ** More on references and the build queue *)

Section SplitMore.
Import gostrings.

Lemma Count_app (a b : string) (sep : ascii) :
  Count (a ++ b) sep = (Count a sep + Count b sep)%nat.
Proof.
  induction a as [| c a IH]; simpl; [reflexivity | ].
  destruct (Ascii.eqb c sep); simpl; now rewrite IH.
Qed.

(** A string without separator is its own single segment. *)
Lemma Split_no_sep (s : string) (sep : ascii) :
  Count s sep = 0%nat -> Split s sep = [s].
Proof.
  induction s as [| c s IH]; simpl; [reflexivity | ].
  destruct (Ascii.eqb c sep); [discriminate | ].
  intros H. now rewrite (IH H).
Qed.

End SplitMore.

Section QueueFacts.
Import goruntime callbacks.


(** For a reference [a/b/c] whose three parts hold no separator,
    [Branch()] returns [c], and it returns the same [c] for [a/b/c/rest]
    whatever [rest] is. *)
Theorem Branch_of_ref (g : GitHubCallback) (a b c : string) :
  gostrings.Count a "/" = 0%nat ->
  gostrings.Count b "/" = 0%nat ->
  gostrings.Count c "/" = 0%nat ->
  (Ref g = (a ++ "/" ++ b ++ "/" ++ c)%string -> Branch g = Returned c)
  /\ (forall rest,
      Ref g = (a ++ "/" ++ b ++ "/" ++ c ++ "/" ++ rest)%string ->
      Branch g = Returned c).
Proof.
  intros Ha Hb Hc. split.
  - intros Hr. rewrite Branch_eq, Hr.
    change (a ++ "/" ++ b ++ "/" ++ c)%string
      with (a ++ String "/" (b ++ String "/" c))%string.
    rewrite Split_app by exact Ha. rewrite Split_app by exact Hb.
    rewrite Split_no_sep by exact Hc.
    reflexivity.
  - intros rest Hr. rewrite Branch_eq, Hr.
    change (a ++ "/" ++ b ++ "/" ++ c ++ "/" ++ rest)%string
      with (a ++ String "/" (b ++ String "/" (c ++ String "/" rest)))%string.
    rewrite Split_app by exact Ha. rewrite Split_app by exact Hb.
    rewrite Split_app by exact Hc.
    reflexivity.
Qed.

Variable Unmarshal : string -> GitHubCallback * option string.

(** What a send does to the channel, case by case. *)
Lemma chansend_cases (c : Chan) (j : logging.Job) :
  (closed c = true /\ chansend c j = (Panicked SendOnClosedChannel, c))
  \/ (closed c = false /\ (0 < recvq c)%nat
      /\ fst (chansend c j) = Returned tt
      /\ buffered (snd (chansend c j)) = buffered c
      /\ received (snd (chansend c j)) = received c ++ [j])
  \/ (closed c = false /\ recvq c = 0%nat
      /\ (List.length (buffered c) < capacity c)%nat
      /\ fst (chansend c j) = Returned tt
      /\ buffered (snd (chansend c j)) = buffered c ++ [j]
      /\ received (snd (chansend c j)) = received c)
  \/ (closed c = false /\ recvq c = 0%nat
      /\ (capacity c <= List.length (buffered c))%nat
      /\ chansend c j = (Blocked, c)).
Proof.
  unfold chansend. destruct (closed c); [left; auto | right].
  destruct (recvq c) as [| n].
  - right.
    destruct (Nat.ltb_spec (List.length (buffered c)) (capacity c)) as [H | H].
    + left. simpl. repeat split; assumption.
    + right. repeat split; assumption.
  - left. simpl. repeat split. lia.
Qed.

Lemma chansend_frame (c : Chan) (j : logging.Job) :
  capacity (snd (chansend c j)) = capacity c
  /\ closed (snd (chansend c j)) = closed c.
Proof.
  unfold chansend. destruct (closed c) eqn:Hc; [auto | ].
  destruct (recvq c); [ | simpl; auto].
  destruct (List.length (buffered c) <? capacity c)%nat; simpl; auto.
Qed.

Lemma send_eq (j : logging.Job) (w : World) :
  send j w = (fst (chansend (jobs w) j),
              {| jobs := snd (chansend (jobs w) j); stdlog := stdlog w |}).
Proof. unfold send. destruct (chansend (jobs w) j); reflexivity. Qed.

Lemma list_neq_app (A : Type) (l : list A) (x : A) : l <> l ++ [x].
Proof.
  intros H. apply (f_equal (@List.length _)) in H.
  rewrite length_app in H. simpl in H. lia.
Qed.

(** [parseGitHub] never drops or reorders a request that waits in the
    buffer of the queue, and never fills the buffer beyond its size: when
    the call returns, panics or is parked, the buffer is as it was or has
    one request more at its end, and it has one more exactly when the
    body was decoded without error, the payload is no deletion,
    [Branch()] returned, the channel is open, no receiver is parked on it
    and the buffer has room. *)
Theorem queue_grows_by_at_most_one
        (now : gotime.Time) (body : string) (w : World) :
  let c := jobs w in
  let c' := jobs (snd (parseGitHub Unmarshal now body w)) in
  (buffered c' = buffered c \/ exists j, buffered c' = buffered c ++ [j])
  /\ ((exists j, buffered c' = buffered c ++ [j])
      <-> snd (Unmarshal body) = None
          /\ Deleted (fst (Unmarshal body)) = false
          /\ (exists b, Branch (fst (Unmarshal body)) = Returned b)
          /\ closed c = false /\ recvq c = 0%nat
          /\ (List.length (buffered c) < capacity c)%nat)
  /\ capacity c' = capacity c
  /\ ((List.length (buffered c) <= capacity c)%nat ->
      (List.length (buffered c') <= capacity c')%nat).
Proof.
  cbv zeta. rewrite parseGitHub_cases. cbv zeta.
  assert (Hsame :
    (buffered (jobs w) = buffered (jobs w)
     \/ exists j, buffered (jobs w) = buffered (jobs w) ++ [j])
    /\ ((exists j, buffered (jobs w) = buffered (jobs w) ++ [j]) -> False)).
  { split; [now left | ]. intros [j H]. now apply list_neq_app in H. }
  destruct Hsame as [Hl Hn].
  destruct (Branch (fst (Unmarshal body))) as [b | p | x |]; cbn [snd jobs].
  - destruct (snd (Unmarshal body)) as [e |]; cbn [snd jobs].
    { split; [exact Hl | ]. split; [ | auto]. split.
      - intros H. now apply Hn in H.
      - intros [H _]. discriminate H. }
    destruct (Deleted (fst (Unmarshal body))); cbn [snd jobs].
    { split; [exact Hl | ]. split; [ | auto]. split.
      - intros H. now apply Hn in H.
      - intros (_ & H & _). discriminate H. }
    rewrite send_eq. cbn [snd jobs].
    match goal with |- context [chansend (jobs w) ?j] =>
      destruct (chansend_cases (jobs w) j)
        as [[Hc He] | [(Hc & Hr & _ & Hb & _) | [(Hc & Hr & Hroom & _ & Hb & _)
           | (Hc & Hr & Hfull & He)]]];
      pose proof (chansend_frame (jobs w) j) as [Hcap _]
    end.
    + rewrite He. cbn [snd]. split; [exact Hl | ]. split; [ | auto]. split.
      * intros H. now apply Hn in H.
      * intros (_ & _ & _ & H & _). congruence.
    + rewrite Hcap, Hb. split; [exact Hl | ]. split; [ | auto]. split.
      * intros H. now apply Hn in H.
      * intros (_ & _ & _ & _ & H & _). lia.
    + rewrite Hcap, Hb. split; [right; eexists; reflexivity | ].
      split; [ | split; [reflexivity | ]].
      * split; [ | intros _; eexists; reflexivity].
        intros _. repeat split; try assumption. now exists b.
      * intros _. rewrite length_app. simpl. lia.
    + rewrite He. cbn [snd]. split; [exact Hl | ]. split; [ | auto]. split.
      * intros H. now apply Hn in H.
      * intros (_ & _ & _ & _ & _ & H). lia.
  - split; [exact Hl | ]. split; [ | auto]. split.
    + intros H. now apply Hn in H.
    + intros (_ & _ & (b & H) & _). discriminate H.
  - split; [exact Hl | ]. split; [ | auto]. split.
    + intros H. now apply Hn in H.
    + intros (_ & _ & (b & H) & _). discriminate H.
  - split; [exact Hl | ]. split; [ | auto]. split.
    + intros H. now apply Hn in H.
    + intros (_ & _ & (b & H) & _). discriminate H.
Qed.

(** The request of a push, on an open queue.  It carries the URL of the
    repository, the branch, the ID of the head commit, the pusher and
    the reading of the clock.  With no receiver parked and room in the
    buffer, [parseGitHub] returns and the request is behind those that
    wait; with a receiver parked it returns and the request is handed to
    that receiver; in both cases nothing is logged. *)
Theorem queued_request
        (now : gotime.Time) (body : string) (w : World) (b : string) :
  snd (Unmarshal body) = None ->
  Deleted (fst (Unmarshal body)) = false ->
  Branch (fst (Unmarshal body)) = Returned b ->
  closed (jobs w) = false ->
  let j := {| logging.URL := Repository.Url (Repository (fst (Unmarshal body)));
              logging.Branch := b;
              logging.Timestamp := now;
              logging.Commit := Commit.Id (Head_commit (fst (Unmarshal body)));
              logging.Name := GitUser.Name (Pusher (fst (Unmarshal body)));
              logging.Email := GitUser.Email (Pusher (fst (Unmarshal body)))
           |} in
  (recvq (jobs w) = 0%nat ->
   (List.length (buffered (jobs w)) < capacity (jobs w))%nat ->
   parseGitHub Unmarshal now body w
   = (Returned tt,
      {| jobs := {| buffered := buffered (jobs w) ++ [j];
                    capacity := capacity (jobs w);
                    closed := false;
                    recvq := 0;
                    received := received (jobs w) |};
         stdlog := stdlog w |}))
  /\ (forall n, recvq (jobs w) = S n ->
      parseGitHub Unmarshal now body w
      = (Returned tt,
         {| jobs := {| buffered := buffered (jobs w);
                       capacity := capacity (jobs w);
                       closed := false;
                       recvq := n;
                       received := received (jobs w) ++ [j] |};
            stdlog := stdlog w |})).
Proof.
  intros He Hd Hb Hc. cbv zeta. rewrite parseGitHub_cases. cbv zeta.
  rewrite He, Hd, Hb. unfold send, chansend. rewrite Hc. split.
  - intros Hr Hroom. rewrite Hr.
    apply Nat.ltb_lt in Hroom. rewrite Hroom. reflexivity.
  - intros n Hr. rewrite Hr. reflexivity.
Qed.

(** How [parseGitHub] ends.  It returns exactly when the body was
    decoded without error, [Branch()] returned and either the payload is
    a deletion or the channel is open with a receiver parked or room in
    its buffer.  It is parked at the send, instead of returning,
    exactly when the body was decoded without error, [Branch()]
    returned, the payload is no deletion and the channel is open with no
    receiver parked and no room in its buffer.  In every other case it
    panics. *)
Theorem parseGitHub_returns_iff
        (now : gotime.Time) (body : string) (w : World) :
  let decoded :=
    snd (Unmarshal body) = None
    /\ exists b, Branch (fst (Unmarshal body)) = Returned b in
  let room :=
    (0 < recvq (jobs w))%nat
    \/ (List.length (buffered (jobs w)) < capacity (jobs w))%nat in
  (fst (parseGitHub Unmarshal now body w) = Returned tt
   <-> decoded
       /\ (Deleted (fst (Unmarshal body)) = true
           \/ (closed (jobs w) = false /\ room)))
  /\ (fst (parseGitHub Unmarshal now body w) = Blocked
      <-> decoded /\ Deleted (fst (Unmarshal body)) = false
          /\ closed (jobs w) = false /\ ~ room)
  /\ (fst (parseGitHub Unmarshal now body w) = Returned tt
      \/ fst (parseGitHub Unmarshal now body w) = Blocked
      \/ exists p, fst (parseGitHub Unmarshal now body w) = Panicked p).
Proof.
  cbv zeta. rewrite parseGitHub_cases. cbv zeta.
  destruct (Branch (fst (Unmarshal body))) as [b | p | x |] eqn:Hb;
    cbn [fst].
  - destruct (snd (Unmarshal body)) as [e |]; cbn [fst].
    { repeat split; try discriminate.
      - intros [[H _] _]. discriminate H.
      - intros [[H _] _]. discriminate H.
      - right. right. eexists; reflexivity. }
    destruct (Deleted (fst (Unmarshal body))); cbn [fst].
    { repeat split; try discriminate; eauto.
      intros (_ & H & _). discriminate H. }
    rewrite send_eq. cbn [fst].
    match goal with |- context [chansend (jobs w) ?j] =>
      destruct (chansend_cases (jobs w) j)
        as [[Hc He] | [(Hc & Hr & Ho & _) | [(Hc & Hr & Hroom & Ho & _)
           | (Hc & Hr & Hfull & He)]]]
    end.
    + rewrite He. cbn [fst]. repeat split; try discriminate.
      * intros [_ [H | [H _]]]; congruence.
      * intros (_ & _ & H & _). congruence.
      * right. right. eexists; reflexivity.
    + rewrite Ho. repeat split; try discriminate; eauto.
      intros (_ & _ & _ & H). exfalso. apply H. now left.
    + rewrite Ho. repeat split; try discriminate; eauto.
      intros (_ & _ & _ & H). exfalso. apply H. now right.
    + rewrite He. cbn [fst]. repeat split; try discriminate; eauto.
      * intros [_ [H1 | [_ [H2 | H3]]]]; [discriminate H1 | lia | lia].
      * intros [H1 | H2]; lia.
  - repeat split; try discriminate.
    + intros [[_ [b H]] _]. discriminate H.
    + intros [[_ [b H]] _]. discriminate H.
    + right. right. eexists; reflexivity.
  - unfold Branch, index in Hb. destruct (nth_error _ _); discriminate Hb.
  - unfold Branch, index in Hb. destruct (nth_error _ _); discriminate Hb.
Qed.

End QueueFacts.


Lemma Branch_of_ref_witness :
  (callbacks.Ref (fixtures.push "refs/heads/main" false)
   = ("refs" ++ "/" ++ "heads" ++ "/" ++ "main")%string ->
   callbacks.Branch (fixtures.push "refs/heads/main" false)
   = goruntime.Returned "main")
  /\ (forall rest,
      callbacks.Ref (fixtures.push "refs/heads/main" false)
      = ("refs" ++ "/" ++ "heads" ++ "/" ++ "main" ++ "/" ++ rest)%string ->
      callbacks.Branch (fixtures.push "refs/heads/main" false)
      = goruntime.Returned "main").
Proof.
  apply (Branch_of_ref (fixtures.push "refs/heads/main" false)
           "refs" "heads" "main");
    reflexivity.
Defined.

(** A push to [main] while one request waits in a queue for two: the new
    request goes behind it. *)
Lemma queued_request_witness :
  callbacks.parseGitHub fixtures.decode fixtures.t2 "push-main" fixtures.busy
  = (goruntime.Returned tt,
     {| callbacks.jobs :=
          callbacks.mkChan
            [fixtures.request;
             {| logging.URL := "https://example.org/leeroy";
                logging.Branch := "main";
                logging.Timestamp := fixtures.t2;
                logging.Commit := "abc123";
                logging.Name := "dev";
                logging.Email := "dev@example.org" |}]
            2 false 0 [];
        callbacks.stdlog := [] |}).
Proof.
  apply (@queued_request fixtures.decode fixtures.t2 "push-main"
           fixtures.busy "main");
    try reflexivity.
  simpl. lia.
Defined.

(** The same push when the queue for one request holds one: the call is
    parked at the send and the queue is as it was. *)
Lemma push_on_full_queue :
  callbacks.parseGitHub fixtures.decode fixtures.t2 "push-main" fixtures.full
  = (goruntime.Blocked, fixtures.full).
Proof. reflexivity. Qed.

(** ** The encoded form, read back *)

Section EscapeFacts.
Import gostrings.

Lemma QueryEscape_cons (c : ascii) (s : string) :
  url.QueryEscape (String c s)
  = (url.QueryEscape (String c EmptyString) ++ url.QueryEscape s)%string.
Proof.
  simpl. destruct (url.shouldEscape c); [ | reflexivity].
  destruct (Ascii.eqb c " "); reflexivity.
Qed.

(** An escaped byte holds neither an ampersand nor an equals sign. *)
Lemma QueryEscape_byte_clean (c : ascii) :
  Count (url.QueryEscape (String c EmptyString)) "&" = 0%nat
  /\ Count (url.QueryEscape (String c EmptyString)) "=" = 0%nat.
Proof.
  destruct c as [[] [] [] [] [] [] [] []]; split; vm_compute; reflexivity.
Qed.

Lemma QueryEscape_clean (s : string) :
  Count (url.QueryEscape s) "&" = 0%nat
  /\ Count (url.QueryEscape s) "=" = 0%nat.
Proof.
  induction s as [| c s [IH1 IH2]]; [split; reflexivity | ].
  rewrite QueryEscape_cons, !Count_app, IH1, IH2.
  destruct (QueryEscape_byte_clean c) as [-> ->]. split; reflexivity.
Qed.

(** Reading an escaped byte gives the byte back. *)
Lemma readEscaped_byte (c : ascii) (t : string) :
  url.readEscaped (url.QueryEscape (String c EmptyString) ++ t)
  = String c (url.readEscaped t).
Proof.
  destruct c as [[] [] [] [] [] [] [] []]; reflexivity.
Qed.

Lemma readEscaped_QueryEscape (s : string) :
  url.readEscaped (url.QueryEscape s) = s.
Proof.
  induction s as [| c s IH]; [reflexivity | ].
  rewrite QueryEscape_cons, readEscaped_byte, IH. reflexivity.
Qed.

Lemma QueryEscape_inj (s t : string) :
  url.QueryEscape s = url.QueryEscape t -> s = t.
Proof.
  intros H. rewrite <- (readEscaped_QueryEscape s), H.
  apply readEscaped_QueryEscape.
Qed.

(** Cutting [key=value] at the equals sign, for a key without one. *)
Lemma cutAt_app (k v : string) (sep : ascii) :
  Count k sep = 0%nat ->
  url.cutAt sep (k ++ String sep v) = (k, Some v).
Proof.
  induction k as [| c k IH]; simpl; intros H.
  - now rewrite Ascii.eqb_refl.
  - destruct (Ascii.eqb c sep); [discriminate | ]. now rewrite (IH H).
Qed.

End EscapeFacts.

Section FormFacts.
Import notification.

(** The pairs of the encoded form. *)
Lemma pairsOf_six (c f m mf nt r : string) :
  gostrings.Count c "&" = 0%nat -> gostrings.Count f "&" = 0%nat ->
  gostrings.Count m "&" = 0%nat -> gostrings.Count mf "&" = 0%nat ->
  gostrings.Count nt "&" = 0%nat -> gostrings.Count r "&" = 0%nat ->
  url.pairsOf ("color=" ++ c ++ "&from=" ++ f ++ "&message=" ++ m
               ++ "&message_format=" ++ mf ++ "&notify=" ++ nt
               ++ "&room_id=" ++ r)
  = [("color", c); ("from", f); ("message", m); ("message_format", mf);
     ("notify", nt); ("room_id", r)].
Proof.
  intros Hc Hf Hm Hmf Hnt Hr. unfold url.pairsOf.
  change ("color=" ++ c ++ "&from=" ++ f ++ "&message=" ++ m
          ++ "&message_format=" ++ mf ++ "&notify=" ++ nt
          ++ "&room_id=" ++ r)%string
    with (("color=" ++ c) ++ String "&" (("from=" ++ f) ++ String "&"
          (("message=" ++ m) ++ String "&" (("message_format=" ++ mf)
          ++ String "&" (("notify=" ++ nt) ++ String "&"
          ("room_id=" ++ r))))))%string.
  rewrite !Split_app by (rewrite Count_app; simpl; assumption).
  rewrite Split_no_sep by (rewrite Count_app; simpl; assumption).
  reflexivity.
Qed.

(** Whatever the strings of a payload contain, its encoded form reads
    back as six pairs, in the order of their keys: the colour that
    follows from the status, the sender, the message, its format, the
    notify flag as [1] or [2], and the room, each string escaped.  No
    content adds a pair, hides one or changes a key; the field [Color]
    is not sent. *)
Theorem encoded_pairs (h : hipchatPayload) :
  url.pairsOf (toURLEncoded h)
  = [("color", if Status h then "green" else "red");
     ("from", url.QueryEscape (From h));
     ("message", url.QueryEscape (Message h));
     ("message_format", url.QueryEscape (Format h));
     ("notify", if Notify h then "1" else "2");
     ("room_id", url.QueryEscape (Room h))].
Proof.
  rewrite toURLEncoded_eq. apply pairsOf_six;
    try apply QueryEscape_clean.
  - destruct (Status h); reflexivity.
  - destruct (Notify h); reflexivity.
Qed.

(** Two payloads have the same encoded form exactly when they agree on
    room, sender, message, format, notify flag and status: the form
    loses nothing but the field [Color]. *)
Theorem toURLEncoded_inj (h h' : hipchatPayload) :
  toURLEncoded h = toURLEncoded h'
  <-> Room h = Room h' /\ From h = From h' /\ Message h = Message h'
      /\ Format h = Format h' /\ Notify h = Notify h'
      /\ Status h = Status h'.
Proof.
  split.
  - intros H. apply (f_equal url.pairsOf) in H.
    rewrite !toURLEncoded_eq in H.
    rewrite !pairsOf_six in H
      by (try apply QueryEscape_clean;
          match goal with |- context [if ?b then _ else _] =>
            destruct b; reflexivity end).
    injection H as Hs Hf Hm Hmf Hn Hr.
    apply QueryEscape_inj in Hf, Hm, Hmf, Hr.
    repeat split; try assumption.
    + destruct (Notify h), (Notify h'); (reflexivity || discriminate).
    + destruct (Status h), (Status h'); (reflexivity || discriminate).
  - intros (Hr & Hf & Hm & Hmf & Hn & Hs).
    rewrite !toURLEncoded_eq, Hr, Hf, Hm, Hmf, Hn, Hs. reflexivity.
Qed.

End FormFacts.

(** Two payloads of the fixtures that differ in their colour only are
    sent as the same form. *)
Lemma same_form_for_any_color :
  notification.toURLEncoded fixtures.greenPayload
  = notification.toURLEncoded fixtures.purplePayload
  /\ notification.toURLEncoded fixtures.greenPayload
     = "color=green&from=Leeroy&message=a%3Db%26c&message_format=text&notify=1&room_id=builds".
Proof. split; reflexivity. Qed.

(** ** The comment on a pull request *)

Section CommentFacts.

Variable Success : logging.Job -> bool.
Variable Hex : logging.Job -> string.

(** The comment reads [build successful] exactly when the job
    succeeded; for a job that failed it is never that text, whatever the
    base URL, the hex name and the commit are. *)
Theorem newComment_success_iff (job : logging.Job) (base : string) :
  github.Body (github.newComment Success Hex job base) = "build successful"
  <-> Success job = true.
Proof.
  unfold github.newComment. destruct (Success job); simpl.
  - split; reflexivity.
  - split; discriminate.
Qed.

(** The comment for a job that failed links to its log under the base
    URL. *)
Lemma newComment_failed (job : logging.Job) (base : string) :
  Success job = false ->
  github.Body (github.newComment Success Hex job base)
  = ("build failed - <a href='" ++ base ++ "status/commit/" ++ Hex job
     ++ "/" ++ logging.Commit job ++ "'>show log</a>")%string.
Proof.
  intros H. unfold github.newComment. rewrite H. simpl.
  rewrite !string_app_assoc. reflexivity.
Qed.

End CommentFacts.

(** ** A deletion that is decoded *)

Section DeletionFacts.
Import goruntime callbacks.

Variable Unmarshal : string -> GitHubCallback * option string.

(** For a deletion that was decoded without error and whose [Branch()]
    returns, [parseGitHub] returns, leaves the queue as it was and writes
    one line to the log, which names the URL of the repository and the
    branch as [Branch()] cut it. *)
Theorem deletion_dropped
        (now : gotime.Time) (body : string) (w : World) (b : string) :
  snd (Unmarshal body) = None ->
  Deleted (fst (Unmarshal body)) = true ->
  Branch (fst (Unmarshal body)) = Returned b ->
  parseGitHub Unmarshal now body w
  = (Returned tt,
     {| jobs := jobs w;
        stdlog := stdlog w ++
          [("Not adding "
            ++ Repository.Url (Repository (fst (Unmarshal body)))
            ++ " " ++ b ++ " to build queue")%string] |}).
Proof.
  intros He Hd Hb. rewrite parseGitHub_cases. cbv zeta.
  rewrite He, Hd, Hb. unfold golog.Sprintln, URL.
  rewrite !Join_cons. reflexivity.
Qed.

End DeletionFacts.

(** The deletion of [feature/x] while one request waits. *)
Lemma deletion_dropped_witness :
  callbacks.parseGitHub fixtures.decode fixtures.t2 "delete-feature-x"
    fixtures.busy
  = (goruntime.Returned tt,
     {| callbacks.jobs := callbacks.jobs fixtures.busy;
        callbacks.stdlog :=
          ["Not adding https://example.org/leeroy feature to build queue"]
     |}).
Proof.
  apply (@deletion_dropped fixtures.decode fixtures.t2 "delete-feature-x"
           fixtures.busy "feature");
    reflexivity.
Defined.
